(** * mcp-registry: the registry-and-dispatch service

    A shallow embedding of [src/mcp_registry/mcp_registry_server.py] (and of
    the tool listing of its predecessor [src/mcp_registry/server.py]).

    The Flask handlers read and write module-level globals ([servers],
    [health_cache], the snapshot file) and talk to the outside world (clock,
    random numbers, sockets, HTTP).  The globals are the fields of [World];
    the outside world is a record [Env] of oracles that answer from the
    history of interactions so far, which is kept in the [trace].  Handlers
    are computations in a state-and-exception monad over [World]. *)

From Stdlib Require Import ZArith Bool List Ascii String.
From stdpp Require Import base option gmap strings pretty.

Import ListNotations.
Local Open Scope string_scope.
Local Open Scope Z_scope.

(** ** Python values the service manipulates *)

#[local] Set Warnings "-register-all".

(** JSON documents, as [json.load] returns them and [json.dump]/[jsonify]
    take them. *)
Inductive json : Type :=
| JNull
| JBool (b : bool)
| JNum (n : Z)
| JStr (s : string)
| JArr (items : list json)
| JObj (members : list (string * json)).

(** [@dataclass class Server]: name, description, url, port. *)
Record Server : Type := mkServer {
  name : string;
  description : string;
  url : string;
  port : Z
}.

(** A tool descriptor as the transport client returns it. *)
Record Tool : Type := mkTool {
  tname : string;
  tdescription : string;
  inputSchema : json
}.

(** Exceptions, by class. *)
Inductive exn_class : Type :=
| RequestException   (* requests.RequestException *)
| SocketError        (* socket.error *)
| KeyError
| RuntimeError
| ValueError
| OverflowError
| OtherException.

Inductive exn : Type := Exn (cls : exn_class) (msg : string).

Definition exn_cls (e : exn) : exn_class := let 'Exn c _ := e in c.
Definition exn_msg (e : exn) : string := let 'Exn _ m := e in m.

Definition exn_class_eqb (a b : exn_class) : bool :=
  match a, b with
  | RequestException, RequestException | SocketError, SocketError
  | KeyError, KeyError | RuntimeError, RuntimeError
  | ValueError, ValueError | OverflowError, OverflowError
  | OtherException, OtherException => true
  | _, _ => false
  end.

Inductive Result (A : Type) : Type :=
| Ok (a : A)
| Raise (e : exn).
Arguments Ok {A} a.
Arguments Raise {A} e.

(** ** Python's insertion-ordered [dict] with string keys

    [servers] is iterated ([servers.values()], [servers.items()]), so the
    order of its entries is observable: assigning to an existing key keeps
    the entry where it is, assigning to a new key appends it. *)
Module Dict.

Definition dict (V : Type) : Type := list (string * V).

Section Ops.
Context {V : Type}.

(** [d[k]], [None] standing for [KeyError]. *)
Fixpoint get (k : string) (d : dict V) : option V :=
  match d with
  | [] => None
  | (k', v) :: rest => if String.eqb k k' then Some v else get k rest
  end.

(** [k in d] *)
Definition contains (k : string) (d : dict V) : bool :=
  match get k d with Some _ => true | None => false end.

(** [d[k] = v] *)
Fixpoint set (k : string) (v : V) (d : dict V) : dict V :=
  match d with
  | [] => [(k, v)]
  | (k', v') :: rest =>
      if String.eqb k k' then (k', v) :: rest else (k', v') :: set k v rest
  end.

Definition keys (d : dict V) : list string := map fst d.
Definition values (d : dict V) : list V := map snd d.
Definition items (d : dict V) : list (string * V) := d.

(** The dict built by reading the pairs in order (a JSON object with a
    repeated member keeps the last value). *)
Definition of_pairs (l : list (string * V)) : dict V :=
  fold_left (fun d kv => set (fst kv) (snd kv) d) l [].

(** Keys are unique: every dict built from [[]] by [set] satisfies it. *)
Definition wf (d : dict V) : Prop := NoDup (keys d).
End Ops.

End Dict.

Abbreviation dict := Dict.dict.

(** ** The outside world *)

(** One interaction with the outside world.  The [trace] holds them newest
    first. *)
Inductive Event : Type :=
| EvNow                                          (* datetime.now() *)
| EvRandint (a b r : Z)                          (* random.randint(a, b) gave r *)
| EvBind (host : string) (p : Z) (ok : bool)     (* sock.bind((host, p)) *)
| EvHttpGet (target : string) (timeout : Z)      (* requests.get(target, timeout=...) *)
| EvListTools (base : string)                    (* FastMCPHttpClient(base).list_tools() *)
| EvCallTool (base : string) (tool : string) (args : json). (* ....call_tool(tool, args) *)

(** Events that reach a backend over the network. *)
Definition is_network (e : Event) : bool :=
  match e with
  | EvHttpGet _ _ | EvListTools _ | EvCallTool _ _ _ => true
  | _ => false
  end.

(** What the snapshot file holds: text that [json.load] rejects, or a JSON
    document.  [json.dump] followed by [json.load] gives back the document,
    so the file is modelled at the level of documents. *)
Inductive FileContent : Type :=
| NotJson
| JsonDoc (j : json).

(** The collaborators the service calls but does not implement.  Every
    oracle sees the history, so answers may change from call to call.

    Three of them are narrower than the libraries they stand for.  The
    URL is taken to be one [urlparse] accepts (it raises [ValueError] on a
    malformed bracketed host); the host is taken to be one [bind] can
    encode (else [TypeError]); and the snapshot file can always be written.
    Statements about the port allocator and about registration are
    therefore made for the outcomes the model has, and say so. *)
Record Env : Type := mkEnv {
  (** [datetime.now()], in microseconds *)
  clock : list Event -> Z;
  (** the random source behind [random.randint] *)
  entropy : list Event -> Z;
  (** does [sock.bind((host, port))] succeed (else [socket.error]) *)
  bind_ok : list Event -> string -> Z -> bool;
  (** [urlparse(url).hostname] *)
  hostname : string -> option string;
  (** [requests.get(url, timeout)]: the status code of the response, or
      the exception raised.  A transport failure is a
      [requests.RequestException]; the library lets other exceptions
      through as well (urllib3's [LocationParseError] for a host it cannot
      parse). *)
  http_get : list Event -> string -> Z -> Result Z;
  (** [FastMCPHttpClient(base).list_tools()] *)
  rpc_list_tools : list Event -> string -> Result (list Tool);
  (** [FastMCPHttpClient(base).call_tool(tool, args)], contents already
      dumped to JSON *)
  rpc_call_tool : list Event -> string -> string -> json -> Result (list json)
}.

(** The module-level state of the service. *)
Record World : Type := mkWorld {
  servers : dict Server;                     (* servers: Dict[str, Server] *)
  health_cache : gmap string (Z * bool);     (* health_cache: Dict[str, tuple[datetime, bool]] *)
  STORAGE_FILE : option FileContent;         (* servers.json; None when absent *)
  trace : list Event
}.

Definition PERMISSION_SERVER_NAME : string := "PermissionServer".

(** ** The monad of handlers: state over [World] with Python exceptions.
    A raised exception keeps the state reached so far. *)
Definition M (A : Type) : Type := World -> Result A * World.

Definition ret {A} (a : A) : M A := fun w => (Ok a, w).
Definition raise {A} (c : exn_class) (msg : string) : M A :=
  fun w => (Raise (Exn c msg), w).
Definition bind {A B} (m : M A) (k : A -> M B) : M B :=
  fun w => match m w with
           | (Ok a, w') => k a w'
           | (Raise e, w') => (Raise e, w')
           end.

Declare Scope py_scope.
Delimit Scope py_scope with py.
Notation "x <- m ;; k" := (bind m (fun x => k))
  (at level 100, m at next level, right associativity) : py_scope.
Notation "m ;;; k" := (bind m (fun _ => k))
  (at level 100, right associativity) : py_scope.
Local Open Scope py_scope.

(** [try: body except cls: handler] *)
Definition try_except {A} (body : M A) (cls : exn_class) (handler : M A) : M A :=
  fun w => match body w with
           | (Raise e, w') =>
               if exn_class_eqb (exn_cls e) cls then handler w' else (Raise e, w')
           | r => r
           end.

(** [try: body except Exception: handler] *)
Definition try_except_Exception {A} (body : M A) (handler : M A) : M A :=
  fun w => match body w with
           | (Raise _, w') => handler w'
           | r => r
           end.

Definition log (e : Event) (w : World) : World :=
  mkWorld (servers w) (health_cache w) (STORAGE_FILE w) (e :: trace w).

Definition get_servers_table : M (dict Server) := fun w => (Ok (servers w), w).
Definition set_servers_table (d : dict Server) : M unit :=
  fun w => (Ok tt, mkWorld d (health_cache w) (STORAGE_FILE w) (trace w)).
Definition get_health_cache : M (gmap string (Z * bool)) :=
  fun w => (Ok (health_cache w), w).
Definition set_health_cache (c : gmap string (Z * bool)) : M unit :=
  fun w => (Ok tt, mkWorld (servers w) c (STORAGE_FILE w) (trace w)).
Definition read_storage : M (option FileContent) :=
  fun w => (Ok (STORAGE_FILE w), w).
Definition write_storage (j : json) : M unit :=
  fun w => (Ok tt, mkWorld (servers w) (health_cache w) (Some (JsonDoc j)) (trace w)).

Section Registry.

Variable E : Env.

(** *** Library calls *)

Definition datetime_now : M Z :=
  fun w => (Ok (clock E (trace w)), log EvNow w).

(** [timedelta(seconds=s)] in microseconds *)
Definition timedelta_seconds (s : Z) : Z := s * 1000000.

(** [random.randint(a, b)]: [ValueError] on an empty range, else some
    integer of [[a, b]]. *)
Definition random_randint (a b : Z) : M Z :=
  fun w =>
    if b <? a then (Raise (Exn ValueError "empty range for randrange()"), w)
    else let r := a + entropy E (trace w) `mod` (b - a + 1) in
         (Ok r, log (EvRandint a b r) w).

(** [sock.bind((host, port))]: [OverflowError] for a number that is not a
    port, [socket.error] when the address cannot be bound. *)
Definition sock_bind (host : string) (p : Z) : M unit :=
  fun w =>
    if (p <? 0) || (65535 <? p)
    then (Raise (Exn OverflowError "bind(): port must be 0-65535."), w)
    else let ok := bind_ok E (trace w) host p in
         (if ok then Ok tt else Raise (Exn SocketError "bind failed"),
          log (EvBind host p ok) w).

Definition requests_get (target : string) (timeout : Z) : M Z :=
  fun w =>
    (http_get E (trace w) target timeout, log (EvHttpGet target timeout) w).

Definition client_list_tools (base : string) : M (list Tool) :=
  fun w => (rpc_list_tools E (trace w) base, log (EvListTools base) w).

Definition client_call_tool (base tool : string) (args : json) : M (list json) :=
  fun w => (rpc_call_tool E (trace w) base tool args, log (EvCallTool base tool args) w).

(** [f"{server.url}:{server.port}"] *)
Definition base_url (server : Server) : string :=
  url server +:+ ":" +:+ pretty (port server).

(** *** [_generate_port] *)

(** [host = urlparse(server_url).hostname or "127.0.0.1"] *)
Definition host_of (server_url : string) : string :=
  match hostname E server_url with
  | Some h => if String.eqb h EmptyString then "127.0.0.1" else h
  | None => "127.0.0.1"
  end.

(** The [while port <= end_port] loop, by recursion on the number of
    ports left in [[port, end_port]]. *)
Fixpoint scan_ports (left : nat) (host : string) (p : Z) : M Z :=
  match left with
  | O => raise RuntimeError "No available ports found in the specified range"
  | S left' =>
      try_except (sock_bind host p ;;; ret p)
                 SocketError
                 (scan_ports left' host (p + 1))
  end.

Definition _generate_port (server_url : string) (start_port end_port : Z) : M Z :=
  let host := host_of server_url in
  p <- random_randint start_port end_port ;;
  scan_ports (Z.to_nat (end_port - p + 1)) host p.

(** *** [check_server_health] *)

Definition probe_health (server : Server) : M bool :=
  is_healthy <-
    try_except
      (status_code <- requests_get (base_url server +:+ "/health") 5 ;;
       ret (status_code =? 200))
      RequestException
      (ret false) ;;
  t <- datetime_now ;;
  cache <- get_health_cache ;;
  set_health_cache (<[name server := (t, is_healthy)]> cache) ;;;
  ret is_healthy.

Definition check_server_health (server : Server) : M bool :=
  cache <- get_health_cache ;;
  match cache !! name server with
  | Some (last_check, is_healthy) =>
      t <- datetime_now ;;
      if t - last_check <? timedelta_seconds 30
      then ret is_healthy
      else probe_health server
  | None => probe_health server
  end.

(** *** The snapshot: [save_servers] and [load_servers] *)

(** [vars(server)] *)
Definition vars (server : Server) : json :=
  JObj [("name", JStr (name server));
        ("description", JStr (description server));
        ("url", JStr (url server));
        ("port", JNum (port server))].

(** [json.dump({name: vars(server) for name, server in servers.items()}, f)] *)
Definition save_servers : M unit :=
  table <- get_servers_table ;;
  write_storage (JObj (map (fun item => (fst item, vars (snd item))) (Dict.items table))).

(** [Server] called with [server_data] unpacked as keyword arguments: they
    must be exactly the four fields, else [TypeError].  The fields are
    typed as the dataclass declares them.  The dataclass itself checks no
    type: a record whose fields have other JSON types is constructed by the
    code and is outside this model, which gives [None] for it; statements
    about loading are made for documents without such records
    ([typed_as_declared]). *)
Definition Server_from (server_data : json) : option Server :=
  match server_data with
  | JObj members =>
      let kwargs := Dict.of_pairs members in
      if (length kwargs =? 4)%nat then
        match Dict.get "name" kwargs, Dict.get "description" kwargs,
              Dict.get "url" kwargs, Dict.get "port" kwargs with
        | Some (JStr n), Some (JStr d), Some (JStr u), Some (JNum p) =>
            Some (mkServer n d u p)
        | _, _, _, _ => None
        end
      else None
  | _ => None
  end.

(** The [for server_data in data.values()] loop.  An exception, of the
    construction or of the health check, leaves the loop for the enclosing
    [except Exception], which only prints: the entries collected so far are
    returned. *)
Fixpoint load_entries (entries : list json) (loaded : dict Server) : M (dict Server) :=
  match entries with
  | [] => ret loaded
  | server_data :: rest =>
      match Server_from server_data with
      | None => ret loaded
      | Some server =>
          checked <- try_except_Exception
                       (healthy <- check_server_health server ;; ret (Some healthy))
                       (ret None) ;;
          match checked with
          | Some true => load_entries rest (Dict.set (name server) server loaded)
          | Some false => load_entries rest loaded
          | None => ret loaded
          end
      end
  end.

Definition load_servers : M (dict Server) :=
  file <- read_storage ;;
  match file with
  | None => ret []                                   (* not STORAGE_FILE.exists() *)
  | Some NotJson => ret []                           (* json.load raises *)
  | Some (JsonDoc (JObj members)) =>
      load_entries (Dict.values (Dict.of_pairs members)) []
  | Some (JsonDoc _) => ret []                       (* data.values() raises *)
  end.

(** *** [POST /register_server] *)

Record RegisterRequest : Type := mkRegisterRequest {
  server_url : option string;
  server_name : option string;
  server_description : option string
}.

(** What a Flask view returns: a body and a status code. *)
Record Response : Type := mkResponse {
  status : Z;
  body : json
}.

Definition error_body (msg : string) : json := JObj [("error", JStr msg)].

Definition register_server (data : RegisterRequest) : M Response :=
  match server_url data, server_name data, server_description data with
  | Some data_url, Some data_name, Some data_description =>
      if String.eqb data_name PERMISSION_SERVER_NAME
      then ret (mkResponse 403 (error_body "Reserved server name"))
      else
        p <- _generate_port data_url 5000 65535 ;;
        let new_server := mkServer data_name data_description data_url p in
        table <- get_servers_table ;;
        set_servers_table (Dict.set data_name new_server table) ;;;
        save_servers ;;;
        ret (mkResponse 201
               (JObj [("message", JStr "Server registered successfully");
                      ("server", JObj [("name", JStr (name new_server));
                                       ("url", JStr (url new_server));
                                       ("description", JStr (description new_server));
                                       ("port", JNum p)])]))
  | _, _, _ => ret (mkResponse 400 (error_body "Missing required fields"))
  end.

(** *** [GET /servers] *)

(** [[s for s in l if check_server_health(s)]] *)
Fixpoint filter_healthy (l : list Server) : M (list Server) :=
  match l with
  | [] => ret []
  | s :: rest =>
      healthy <- check_server_health s ;;
      kept <- filter_healthy rest ;;
      ret (if healthy then s :: kept else kept)
  end.

Definition server_info (server : Server) : json :=
  JObj [("name", JStr (name server));
        ("url", JStr (url server));
        ("description", JStr (description server));
        ("port", JNum (port server))].

Definition get_servers : M Response :=
  table <- get_servers_table ;;
  live <- filter_healthy (Dict.values table) ;;
  ret (mkResponse 200 (JArr (map server_info live))).

(** *** [GET /tools] *)

(** [tool.model_dump()] *)
Definition model_dump (tool : Tool) : json :=
  JObj [("name", JStr (tname tool));
        ("description", JStr (tdescription tool));
        ("inputSchema", inputSchema tool)].

(** [tool.name = f"{server.name}.{tool.name}"] *)
Definition qualify (server : Server) (tool : Tool) : Tool :=
  mkTool (name server +:+ "." +:+ tname tool)
         (tdescription tool) (inputSchema tool).

Definition mark_unhealthy (server : Server) : M unit :=
  t <- datetime_now ;;
  cache <- get_health_cache ;;
  set_health_cache (<[name server := (t, false)]> cache).

Fixpoint get_tools_loop (target_servers : list Server) (all_tools : list Tool)
  : M (list Tool) :=
  match target_servers with
  | [] => ret all_tools
  | server :: rest =>
      all_tools' <-
        try_except
          (healthy <- check_server_health server ;;
           if negb healthy then ret all_tools
           else
             tools <- client_list_tools (base_url server) ;;
             ret (all_tools ++ map (qualify server) tools)%list)
          RequestException
          (mark_unhealthy server ;;; ret all_tools) ;;
      get_tools_loop rest all_tools'
  end.

(** [[servers[server_name]] if server_name else servers.values()]: an
    absent or empty [server_name] selects every server. *)
Definition tools_targets (server_name : option string) : M (list Server) :=
  table <- get_servers_table ;;
  match server_name with
  | Some n =>
      if String.eqb n EmptyString then ret (Dict.values table)
      else match Dict.get n table with
           | Some server => ret [server]
           | None => raise KeyError n
           end
  | None => ret (Dict.values table)
  end.

(** The two outer handlers of [get_tools]: [KeyError] is 404, any other
    exception 500. *)
Definition tools_errors (server_name : option string) (m : M Response) : M Response :=
  fun w => match m w with
           | (Raise e, w') =>
               if exn_class_eqb (exn_cls e) KeyError
               then (Ok (mkResponse 404
                           (error_body ("Server '" +:+ default "None" server_name
                                        +:+ "' not found"))), w')
               else (Ok (mkResponse 500 (error_body (exn_msg e))), w')
           | r => r
           end.

Definition get_tools (server_name : option string) : M Response :=
  tools_errors server_name
    (target_servers <- tools_targets server_name ;;
     all_tools <- get_tools_loop target_servers [] ;;
     ret (mkResponse 200 (JArr (map model_dump all_tools)))).

(** *** [POST /tools/call_tool] *)

(** ["." in s] *)
Fixpoint contains_dot (s : string) : bool :=
  match s with
  | EmptyString => false
  | String c rest => Ascii.eqb c "."%char || contains_dot rest
  end.

(** [s.split(".", 1)]: at most one split, at the leftmost separator. *)
Fixpoint split_dot_once (s : string) : list string :=
  match s with
  | EmptyString => [EmptyString]
  | String c rest =>
      if Ascii.eqb c "."%char then [EmptyString; rest]
      else match split_dot_once rest with
           | head :: tail => String c head :: tail
           | [] => []
           end
  end.

(** Python truthiness of an optional string: [None] and the empty string
    are false. *)
Definition truthy (s : option string) : bool :=
  match s with
  | Some s' => negb (String.eqb s' EmptyString)
  | None => false
  end.

(** Lines 226-245: name resolution, the permission boundary and the
    choice of [target_servers].  A request is either answered at once or
    goes on with its [server_name], [tool_name] and [target_servers]. *)
Inductive Resolution : Type :=
| Answered (r : Response)
| Targets (server_name : option string) (tool_name : string)
          (target_servers : list Server).

Definition call_tool_resolve (requested : string) : M Resolution :=
  table <- get_servers_table ;;
  if contains_dot requested then
    match split_dot_once requested with
    | [server_name; tool_name] =>
        if String.eqb tool_name "ask_for_permission"
           && negb (String.eqb server_name PERMISSION_SERVER_NAME)
        then ret (Answered (mkResponse 403
                   (error_body "Permission denied: unauthorized server")))
        else if negb (Dict.contains server_name table)
        then ret (Answered (mkResponse 404
                   (error_body ("Server '" +:+ server_name +:+ "' not found"))))
        else match Dict.get server_name table with
             | Some server => ret (Targets (Some server_name) tool_name [server])
             | None => raise KeyError server_name
             end
    | _ => raise ValueError "not enough values to unpack"
    end
  else
    let tool_name := requested in
    if String.eqb tool_name "ask_for_permission" then
      match Dict.get PERMISSION_SERVER_NAME table with
      | Some server => ret (Targets None tool_name [server])
      | None => raise KeyError PERMISSION_SERVER_NAME
      end
    else
      live <- filter_healthy (Dict.values table) ;;
      ret (Targets None tool_name live).

(** [any(t.name == tool_name for t in available_tools)] *)
Definition has_tool (tool_name : string) (available_tools : list Tool) : bool :=
  existsb (fun t => String.eqb (tname t) tool_name) available_tools.

(** Lines 247-265: the [for server in target_servers] loop.  [Some result]
    is the [return] inside the loop, [None] its normal end. *)
Fixpoint call_tool_loop (tool_name : string) (data : json)
    (target_servers : list Server) : M (option (list json)) :=
  match target_servers with
  | [] => ret None
  | server :: rest =>
      outcome <-
        try_except
          (available_tools <- client_list_tools (base_url server) ;;
           if negb (has_tool tool_name available_tools) then ret None
           else
             result <- client_call_tool (base_url server) tool_name data ;;
             ret (Some result))
          RequestException
          (ret None) ;;
      match outcome with
      | Some result => ret (Some result)
      | None => call_tool_loop tool_name data rest
      end
  end.

(** Lines 267-272. *)
Definition not_found_message (server_name : option string) (tool_name : string) : string :=
  let error_msg := "Tool '" +:+ tool_name +:+ "' not found" in
  if truthy server_name
  then error_msg +:+ " on server '" +:+ default EmptyString server_name +:+ "'"
  else error_msg.

(** [requested] is [data.pop("name", None)], [data] what is left of the
    request body. *)
Definition call_tool (requested : option string) (data : json) : M Response :=
  match requested with
  | None => ret (mkResponse 400 (error_body "Tool name not provided"))
  | Some requested_name =>
      resolution <- call_tool_resolve requested_name ;;
      match resolution with
      | Answered r => ret r
      | Targets server_name tool_name target_servers =>
          outcome <- call_tool_loop tool_name data target_servers ;;
          match outcome with
          | Some result => ret (mkResponse 200 (JArr result))
          | None =>
              ret (mkResponse 404 (error_body (not_found_message server_name tool_name)))
          end
      end
  end.

(** *** Startup: [load_permission_server] and [run] *)

(** The description of the built-in permission server
    ([permission_server.mcp.description]) is a parameter; starting its
    thread and the settling delay leave the registry state alone. *)
Variable permission_description : string.

Definition load_permission_server : M unit :=
  let permission_server_url := "http://127.0.0.1" in
  permission_port <- _generate_port permission_server_url 5000 65535 ;;
  let permission_server_instance :=
    mkServer PERMISSION_SERVER_NAME permission_description
             permission_server_url permission_port in
  table <- get_servers_table ;;
  set_servers_table (Dict.set PERMISSION_SERVER_NAME permission_server_instance table).

(** [for server in loaded_servers.keys(): if server != PERMISSION_SERVER_NAME: ...] *)
Fixpoint adopt_loaded (loaded : dict Server) (table : dict Server) : dict Server :=
  match loaded with
  | [] => table
  | (key, server) :: rest =>
      if negb (String.eqb key PERMISSION_SERVER_NAME)
      then adopt_loaded rest (Dict.set key server table)
      else adopt_loaded rest table
  end.

(** [run], up to the point where Flask starts serving. *)
Definition run : M unit :=
  load_permission_server ;;;
  loaded_servers <- load_servers ;;
  table <- get_servers_table ;;
  set_servers_table (adopt_loaded loaded_servers table) ;;;
  save_servers.

End Registry.

(** ** The tool listing of [src/mcp_registry/server.py]

    The earlier server has no health cache; its [get_tools] calls every
    target without asking for its health first. *)
Module Legacy.
Section Legacy.
Variable E : Env.

Fixpoint get_tools_loop (target_servers : list Server) (all_tools : list Tool)
  : M (list Tool) :=
  match target_servers with
  | [] => ret all_tools
  | server :: rest =>
      all_tools' <-
        try_except
          (tools <- client_list_tools E (base_url server) ;;
           ret (all_tools ++ map (qualify server) tools)%list)
          RequestException
          (ret all_tools) ;;
      get_tools_loop rest all_tools'
  end.

Definition get_tools (server_name : option string) : M Response :=
  tools_errors server_name
    (target_servers <- tools_targets server_name ;;
     all_tools <- get_tools_loop target_servers [] ;;
     ret (mkResponse 200 (JArr (map model_dump all_tools)))).

(** [check_server_health] of [server.py]: one probe per call, no cache. *)
Definition check_server_health (server : Server) : M bool :=
  try_except
    (status_code <- requests_get E (base_url server +:+ "/health") 5 ;;
     ret (status_code =? 200))
    RequestException
    (ret false).

(** [[s for s in l if check_server_health(s)]] *)
Fixpoint filter_healthy (l : list Server) : M (list Server) :=
  match l with
  | [] => ret []
  | s :: rest =>
      healthy <- check_server_health s ;;
      kept <- filter_healthy rest ;;
      ret (if healthy then s :: kept else kept)
  end.

Definition get_servers : M Response :=
  table <- get_servers_table ;;
  live <- filter_healthy (Dict.values table) ;;
  ret (mkResponse 200 (JArr (map server_info live))).

(** [register_server] of [server.py]: the field check, then the
    allocation; no name is reserved. *)
Definition register_server (data : RegisterRequest) : M Response :=
  match server_url data, server_name data, server_description data with
  | Some data_url, Some data_name, Some data_description =>
      p <- _generate_port E data_url 5000 65535 ;;
      let new_server := mkServer data_name data_description data_url p in
      table <- get_servers_table ;;
      set_servers_table (Dict.set data_name new_server table) ;;;
      save_servers ;;;
      ret (mkResponse 201
             (JObj [("message", JStr "Server registered successfully");
                    ("server", JObj [("name", JStr (name new_server));
                                     ("url", JStr (url new_server));
                                     ("description", JStr (description new_server));
                                     ("port", JNum p)])]))
  | _, _, _ => ret (mkResponse 400 (error_body "Missing required fields"))
  end.

(** Lines 204-215 of [server.py]: name resolution and the choice of
    [target_servers]. *)
Definition call_tool_resolve (requested : string) : M Resolution :=
  table <- get_servers_table ;;
  if contains_dot requested then
    match split_dot_once requested with
    | [server_name; tool_name] =>
        if negb (Dict.contains server_name table)
        then ret (Answered (mkResponse 404
                   (error_body ("Server '" +:+ server_name +:+ "' not found"))))
        else match Dict.get server_name table with
             | Some server => ret (Targets (Some server_name) tool_name [server])
             | None => raise KeyError server_name
             end
    | _ => raise ValueError "not enough values to unpack"
    end
  else
    live <- filter_healthy (Dict.values table) ;;
    ret (Targets None requested live).

(** [call_tool] of [server.py]; its loop and its final message are those
    of the later server. *)
Definition call_tool (requested : option string) (data : json) : M Response :=
  match requested with
  | None => ret (mkResponse 400 (error_body "Tool name not provided"))
  | Some requested_name =>
      resolution <- call_tool_resolve requested_name ;;
      match resolution with
      | Answered r => ret r
      | Targets server_name tool_name target_servers =>
          outcome <- call_tool_loop E tool_name data target_servers ;;
          match outcome with
          | Some result => ret (mkResponse 200 (JArr result))
          | None =>
              ret (mkResponse 404 (error_body (not_found_message server_name tool_name)))
          end
      end
  end.
End Legacy.
End Legacy.

(** ** The tool names of [src/mcp_explorer/mcp_explorer.py]

    The explorer shows the tools the registry lists.  Its windows are not
    modelled; the two string computations it makes on tool names are. *)
Module Explorer.

(** [s.split(".")] *)
Fixpoint split_dot (s : string) : list string :=
  match s with
  | EmptyString => [EmptyString]
  | String c rest =>
      if Ascii.eqb c "."%char then EmptyString :: split_dot rest
      else match split_dot rest with
           | head :: tail => String c head :: tail
           | [] => []
           end
  end.

(** [display_name = tool.name.split(".")[-1]] *)
Definition display_name (tool_name : string) : string :=
  List.last (split_dot tool_name) EmptyString.

(** [full_tool_name = f"{server_name}.{tool_name}"] *)
Definition full_tool_name (server_name tool_name : string) : string :=
  server_name +:+ "." +:+ tool_name.

End Explorer.

(** * The vocabulary of the properties

    Definitions the statements below are written with.  None of them is
    part of the service. *)

(** ** Worlds and responses *)

(** The registry state of [w'] is that of [w]; only the trace may differ. *)
Definition state_unchanged (w w' : World) : Prop :=
  servers w' = servers w /\ health_cache w' = health_cache w /\
  STORAGE_FILE w' = STORAGE_FILE w.

Definition consent_denied : Response :=
  mkResponse 403 (error_body "Permission denied: unauthorized server").

Definition server_not_found (server_name : string) : Response :=
  mkResponse 404 (error_body ("Server '" +:+ server_name +:+ "' not found")).

(** A request lacks one of the three required fields. *)
Definition missing_field (data : RegisterRequest) : bool :=
  negb (match server_url data, server_name data, server_description data with
        | Some _, Some _, Some _ => true
        | _, _, _ => false
        end).

(** The response is the 201 of a successful registration. *)
Definition registered (resp : Response) : Prop := status resp = 201.

(** ** The health prober *)

(** [f"{server.url}:{server.port}/health"] *)
Definition health_url (server : Server) : string := base_url server +:+ "/health".

(** The TTL of a health record, in microseconds. *)
Definition TTL : Z := 30 * 1000000.

(** What a probe started after the history [before] leaves behind. *)
Definition probed (E : Env) (server : Server) (verdict : bool)
    (before : list Event) (w : World) : World :=
  mkWorld (servers w)
          (<[name server :=
               (clock E (EvHttpGet (health_url server) 5 :: before), verdict)]>
             (health_cache w))
          (STORAGE_FILE w)
          (EvNow :: EvHttpGet (health_url server) 5 :: before).

(** What a probe that raised leaves behind: the request is on the trace,
    nothing is recorded. *)
Definition probe_aborted (server : Server) (before : list Event) (w : World) : World :=
  mkWorld (servers w) (health_cache w) (STORAGE_FILE w)
          (EvHttpGet (health_url server) 5 :: before).

(** An exception the handlers for transport errors do not catch. *)
Definition uncaught (e : exn) : Prop :=
  exn_class_eqb (exn_cls e) RequestException = false.

(** Every one of the servers passes its health check, the checks being made
    one after the other from world [w] on (as [load_servers] makes them). *)
Fixpoint all_pass (E : Env) (l : list Server) (w : World) : bool :=
  match l with
  | [] => true
  | s :: rest =>
      match check_server_health E s w with
      | (Ok true, w') => all_pass E rest w'
      | _ => false
      end
  end.

(** [live] are the servers of [l], in order, that the health prober
    reported healthy when asked one after the other from world [w] on. *)
Inductive HealthFiltered (E : Env) : list Server -> World -> list Server -> World -> Prop :=
| HF_done w : HealthFiltered E [] w [] w
| HF_keep s rest w w1 live w2 :
    check_server_health E s w = (Ok true, w1) ->
    HealthFiltered E rest w1 live w2 ->
    HealthFiltered E (s :: rest) w (s :: live) w2
| HF_drop s rest w w1 live w2 :
    check_server_health E s w = (Ok false, w1) ->
    HealthFiltered E rest w1 live w2 ->
    HealthFiltered E (s :: rest) w live w2.

(** The health checks of the servers of [l], made one after the other from
    world [w] on, were cut short: one of them raised [e], leaving world
    [w']; the servers after it were not checked. *)
Inductive HealthAborted (E : Env) : list Server -> World -> exn -> World -> Prop :=
| HA_here s rest w e w1 :
    check_server_health E s w = (Raise e, w1) ->
    HealthAborted E (s :: rest) w e w1
| HA_later s rest w verdict w1 e w2 :
    check_server_health E s w = (Ok verdict, w1) ->
    HealthAborted E rest w1 e w2 ->
    HealthAborted E (s :: rest) w e w2.

(** ** The port allocator *)

Definition no_port_message : string :=
  "No available ports found in the specified range".

(** The failed probes of ports [p, p+1, ..., p+n-1], newest first. *)
Definition failed_binds (host : string) (p n : Z) : list Event :=
  rev (map (fun q => EvBind host q false) (seqZ p n)).

(** ** Tables and snapshots *)

(** The document [save_servers] writes for a table. *)
Definition snapshot_of (table : dict Server) : json :=
  JObj (map (fun item => (fst item, vars (snd item))) table).

(** The document has the shape of a server record: an object with exactly
    the members [name], [description], [url] and [port] (so that the
    construction of a [Server] from it does not raise [TypeError]). *)
Definition record_shaped (j : json) : bool :=
  match j with
  | JObj members =>
      let kwargs := Dict.of_pairs members in
      (length kwargs =? 4)%nat
      && Dict.contains "name" kwargs && Dict.contains "description" kwargs
      && Dict.contains "url" kwargs && Dict.contains "port" kwargs
  | _ => false
  end.

(** A document that has the shape of a server record has fields of the
    types the dataclass declares. *)
Definition typed_as_declared (j : json) : bool :=
  negb (record_shaped j)
  || match Server_from j with Some _ => true | None => false end.

(** Every entry of the table is filed under its server's own name. *)
Definition keyed_by_name (table : dict Server) : Prop :=
  Forall (fun item => fst item = name (snd item)) table.

(** The tables the service builds: unique keys, every server under its
    own name. *)
Definition table_ok (table : dict Server) : Prop :=
  Dict.wf table /\ keyed_by_name table.

(** The snapshot file holds the document of the current table. *)
Definition in_sync (w : World) : Prop :=
  STORAGE_FILE w = Some (JsonDoc (snapshot_of (servers w))).

(** ** Tool listing *)

(** The addresses of the tool-listing calls in a trace, newest first. *)
Fixpoint listing_calls (tr : list Event) : list string :=
  match tr with
  | [] => []
  | EvListTools base :: rest => base :: listing_calls rest
  | _ :: rest => listing_calls rest
  end.

(** A tool-listing call to [s]: it answers, or it fails with a transport
    error and [s] is recorded as unhealthy. *)
Inductive Listed (E : Env) (s : Server) (w : World) : World -> Prop :=
| Listed_answered tools :
    rpc_list_tools E (trace w) (base_url s) = Ok tools ->
    Listed E s w (log (EvListTools (base_url s)) w)
| Listed_failed msg :
    rpc_list_tools E (trace w) (base_url s) = Raise (Exn RequestException msg) ->
    Listed E s w (snd (mark_unhealthy E s (log (EvListTools (base_url s)) w))).

(** A run of the listing loop over [l]: [called] are the servers, in
    order, reported healthy at their turn, and these are the ones a
    tool-listing call was made to. *)
Inductive Gated (E : Env) : list Server -> World -> list Server -> World -> Prop :=
| Gated_done w : Gated E [] w [] w
| Gated_skip s rest w w1 called w2 :
    check_server_health E s w = (Ok false, w1) ->
    Gated E rest w1 called w2 ->
    Gated E (s :: rest) w called w2
| Gated_call s rest w w1 w1' called w2 :
    check_server_health E s w = (Ok true, w1) ->
    Listed E s w1 w1' ->
    Gated E rest w1' called w2 ->
    Gated E (s :: rest) w (s :: called) w2.

(** ** The invocation loop *)

Section LoopOutcomes.

Variable E : Env.
Variables (tool_name : string) (data : json).

(** The three ways a candidate is passed over: its catalog fetch fails
    with a transport error, its catalog lacks the tool, or its call fails
    with a transport error. *)
Inductive Skipped (s : Server) (w : World) : World -> Prop :=
| Skip_listing_failed msg :
    rpc_list_tools E (trace w) (base_url s) = Raise (Exn RequestException msg) ->
    Skipped s w (log (EvListTools (base_url s)) w)
| Skip_tool_absent tools :
    rpc_list_tools E (trace w) (base_url s) = Ok tools ->
    has_tool tool_name tools = false ->
    Skipped s w (log (EvListTools (base_url s)) w)
| Skip_call_failed tools msg :
    rpc_list_tools E (trace w) (base_url s) = Ok tools ->
    has_tool tool_name tools = true ->
    rpc_call_tool E (EvListTools (base_url s) :: trace w) (base_url s) tool_name data
      = Raise (Exn RequestException msg) ->
    Skipped s w (log (EvCallTool (base_url s) tool_name data)
                     (log (EvListTools (base_url s)) w)).

(** The candidate has the tool and its call completes with [result]. *)
Inductive Won (s : Server) (w : World) (result : list json) : World -> Prop :=
| Won_call tools :
    rpc_list_tools E (trace w) (base_url s) = Ok tools ->
    has_tool tool_name tools = true ->
    rpc_call_tool E (EvListTools (base_url s) :: trace w) (base_url s) tool_name data
      = Ok result ->
    Won s w result (log (EvCallTool (base_url s) tool_name data)
                        (log (EvListTools (base_url s)) w)).

(** Every candidate of the list is passed over, one after the other. *)
Inductive AllSkipped : list Server -> World -> World -> Prop :=
| AllSkipped_nil w : AllSkipped [] w w
| AllSkipped_cons s rest w w1 w2 :
    Skipped s w w1 -> AllSkipped rest w1 w2 -> AllSkipped (s :: rest) w w2.

End LoopOutcomes.

(** ** Concrete environments and worlds for the examples *)

Module Examples.

(** Every backend answers: health 200, one tool [echo], a fixed result.
    The clock advances one second per interaction; ports from 5010 up
    can be bound. *)
Definition friendly : Env :=
  mkEnv (fun tr => 1000000 * Z.of_nat (length tr))
        (fun _ => 7)
        (fun _ _ p => 5010 <=? p)
        (fun _ => Some "127.0.0.1")
        (fun _ _ _ => Ok 200)
        (fun _ _ => Ok [mkTool "echo" "Echo the input text" JNull])
        (fun _ _ _ _ => Ok [JStr "Echo: Hi"]).

(** No backend is reachable and no port can be bound. *)
Definition hostile : Env :=
  mkEnv (fun tr => 1000000 * Z.of_nat (length tr))
        (fun _ => 0)
        (fun _ _ _ => false)
        (fun _ => None)
        (fun _ _ _ => Raise (Exn RequestException "connection refused"))
        (fun _ _ => Raise (Exn RequestException "connection refused"))
        (fun _ _ _ _ => Raise (Exn RequestException "connection refused")).

(** Like [friendly], but the health endpoint answers 204 No Content. *)
Definition no_content : Env :=
  mkEnv (fun tr => 1000000 * Z.of_nat (length tr))
        (fun _ => 7)
        (fun _ _ p => 5010 <=? p)
        (fun _ => Some "127.0.0.1")
        (fun _ _ _ => Ok 204)
        (fun _ _ => Ok [mkTool "echo" "Echo the input text" JNull])
        (fun _ _ _ _ => Ok [JStr "Echo: Hi"]).

(** Like [friendly], but the HTTP client cannot parse the address of the
    health endpoint and raises an exception that is not a
    [RequestException]. *)
Definition unparsable : Env :=
  mkEnv (fun tr => 1000000 * Z.of_nat (length tr))
        (fun _ => 7)
        (fun _ _ p => 5010 <=? p)
        (fun _ => Some "127.0.0.1")
        (fun _ _ _ => Raise (Exn OtherException "LocationParseError"))
        (fun _ _ => Ok [mkTool "echo" "Echo the input text" JNull])
        (fun _ _ _ _ => Ok [JStr "Echo: Hi"]).

Definition empty_world : World := mkWorld [] empty None [].

Definition echo : Server := mkServer "Echo" "d" "http://127.0.0.1" 5010.
Definition evil : Server := mkServer "Evil" "d" "http://10.0.0.9" 6000.
Definition privileged : Server :=
  mkServer PERMISSION_SERVER_NAME "permissions" "http://127.0.0.1" 5011.

Definition world_of (table : dict Server) : World := mkWorld table empty None [].

(** Health checks pass everywhere, but only the backend at
    [http://127.0.0.1:5010] answers tool listings and calls. *)
Definition picky : Env :=
  mkEnv (fun tr => 1000000 * Z.of_nat (length tr))
        (fun _ => 7)
        (fun _ _ p => 5010 <=? p)
        (fun _ => Some "127.0.0.1")
        (fun _ _ _ => Ok 200)
        (fun _ base => if String.eqb base "http://127.0.0.1:5010"
                       then Ok [mkTool "echo" "Echo the input text" JNull]
                       else Raise (Exn RequestException "connection refused"))
        (fun _ _ _ _ => Ok [JStr "Echo: Hi"]).

Definition two_backends : World := world_of [("Evil", evil); ("Echo", echo)].

(** A backend registered under the empty name. *)
Definition nameless : Server := mkServer EmptyString "d" "http://127.0.0.1" 5010.

Definition first_echo : RegisterRequest :=
  mkRegisterRequest (Some "http://127.0.0.1") (Some "Echo") (Some "first").
Definition second_echo : RegisterRequest :=
  mkRegisterRequest (Some "http://10.0.0.2") (Some "Echo") (Some "second").
Definition after_first : World :=
  snd (register_server friendly first_echo empty_world).
Definition after_second : World :=
  snd (register_server friendly second_echo after_first).

End Examples.

(** ** Tactics *)

(** Unfold the monad and the accessors of the world. *)
Ltac unfold_monad :=
  unfold bind, ret, raise, try_except, try_except_Exception,
    get_servers_table, set_servers_table,
    get_health_cache, set_health_cache, read_storage, write_storage in *.

Ltac run := unfold_monad; cbn [fst snd servers health_cache STORAGE_FILE trace] in *.

(** Split a [Forall] over an explicit list. *)
Ltac forall_list :=
  repeat match goal with
         | |- Forall _ (_ :: _) => constructor
         | |- Forall _ [] => constructor
         end.

(** * Properties *)

(** ** Facts on [dict] *)

Module DictFacts.
Import Dict.

Section Facts.
Context {V : Type}.
Implicit Types (d : dict V) (k : string) (v : V).

Lemma get_set_eq k v d : get k (set k v d) = Some v.
Proof.
  induction d as [|[k' v'] d IH]; simpl.
  - now rewrite String.eqb_refl.
  - destruct (String.eqb k k') eqn:Hk; simpl; rewrite Hk; auto.
Qed.

Lemma get_set_ne k k' v d : k <> k' -> get k' (set k v d) = get k' d.
Proof.
  intros Hne. induction d as [|[k0 v0] d IH]; simpl.
  - destruct (String.eqb k' k) eqn:Hk; auto.
    apply String.eqb_eq in Hk. congruence.
  - destruct (String.eqb k k0) eqn:Hk; simpl.
    + apply String.eqb_eq in Hk. subst k0.
      destruct (String.eqb k' k) eqn:Hk'; auto.
      apply String.eqb_eq in Hk'. congruence.
    + now rewrite IH.
Qed.

(** A second assignment to a key leaves nothing of the first. *)
Lemma set_set k v1 v2 d : set k v2 (set k v1 d) = set k v2 d.
Proof.
  induction d as [|[k' v'] d IH]; simpl.
  - now rewrite String.eqb_refl.
  - destruct (String.eqb k k') eqn:Hk; simpl; rewrite Hk; auto.
    now rewrite IH.
Qed.

Lemma keys_set_present k v d :
  In k (keys d) -> keys (set k v d) = keys d.
Proof.
  induction d as [|[k' v'] d IH]; simpl; [tauto|].
  intros Hin. destruct (String.eqb k k') eqn:Hk; simpl; auto.
  f_equal. apply IH. destruct Hin as [->|]; auto.
  now rewrite String.eqb_refl in Hk.
Qed.

Lemma set_absent k v d :
  ~ In k (keys d) -> set k v d = (d ++ [(k, v)])%list.
Proof.
  induction d as [|[k' v'] d IH]; simpl; auto.
  intros Hnin. destruct (String.eqb k k') eqn:Hk.
  - apply String.eqb_eq in Hk. subst. tauto.
  - f_equal. apply IH. tauto.
Qed.

Lemma get_None_keys k d : get k d = None <-> ~ In k (keys d).
Proof.
  induction d as [|[k' v'] d IH]; simpl; [tauto|].
  destruct (String.eqb k k') eqn:Hk.
  - apply String.eqb_eq in Hk. subst. split; [discriminate|tauto].
  - apply String.eqb_neq in Hk. rewrite IH. split; intros H; [|tauto].
    intros [?|?]; [congruence|tauto].
Qed.

Lemma wf_set k v d : wf d -> wf (set k v d).
Proof.
  unfold wf. intros Hwf.
  destruct (get k d) eqn:Hg.
  - rewrite keys_set_present; auto.
    destruct (in_dec string_dec k (keys d)) as [|Hn]; auto.
    apply get_None_keys in Hn. congruence.
  - apply get_None_keys in Hg. rewrite set_absent by auto.
    unfold keys in *. rewrite map_app. simpl.
    apply NoDup_app; repeat split; auto.
    + intros x Hx [<-|[]]%list_elem_of_In. apply list_elem_of_In in Hx. tauto.
    + apply NoDup_singleton.
Qed.
End Facts.
End DictFacts.

(** ** Name resolution ([contains_dot], [split_dot_once]) *)

Lemma contains_dot_qualified (s t : string) :
  contains_dot (s +:+ "." +:+ t) = true.
Proof.
  induction s as [|c s IH]; simpl; auto.
  rewrite IH. apply orb_true_r.
Qed.

Lemma split_dot_once_qualified (s t : string) :
  contains_dot s = false -> split_dot_once (s +:+ "." +:+ t) = [s; t].
Proof.
  induction s as [|c s IH]; simpl; auto.
  intros [Hc Hs]%orb_false_elim. rewrite Hc, IH; auto.
Qed.

Lemma split_dot_once_shape (requested : string) :
  contains_dot requested = true ->
  exists server_name tool_name,
    split_dot_once requested = [server_name; tool_name] /\
    requested = server_name +:+ "." +:+ tool_name /\
    contains_dot server_name = false.
Proof.
  induction requested as [|c r IH]; simpl; [discriminate|].
  destruct (Ascii.eqb c ".") eqn:Hc; simpl.
  - intros _. apply Ascii.eqb_eq in Hc. subst c.
    exists EmptyString, r. auto.
  - intros Hr. destruct (IH Hr) as (sn & tn & Hsplit & Heq & Hsn).
    exists (String c sn), tn. rewrite Hsplit. simpl. rewrite Hc, Hsn.
    repeat split; auto. now rewrite Heq.
Qed.

(** ** C10: a qualified name is split at its first separator *)

Example split_A_B_tool : split_dot_once "A.B.tool" = ["A"; "B.tool"].
Proof. reflexivity. Qed.

(** C10. A requested name that contains a separator has exactly one
    decomposition [server_name.tool_name] in which [server_name] is free of
    separators; it is the one [split] computes, and the one the
    dispatcher goes on with.  The tool name is the whole remainder, further
    separators included. *)
Theorem C10_split_at_first_separator (E : Env) (requested : string) (w : World) :
  contains_dot requested = true ->
  exists server_name tool_name,
    requested = server_name +:+ "." +:+ tool_name /\
    contains_dot server_name = false /\
    split_dot_once requested = [server_name; tool_name] /\
    (forall s t, requested = s +:+ "." +:+ t -> contains_dot s = false ->
                 s = server_name /\ t = tool_name) /\
    (forall sn tn targets w',
        call_tool_resolve E requested w = (Ok (Targets sn tn targets), w') ->
        sn = Some server_name /\ tn = tool_name).
Proof.
  intros Hdot.
  destruct (split_dot_once_shape requested Hdot) as (sn & tn & Hsplit & Heq & Hsn).
  exists sn, tn. repeat split; auto.
  - subst requested. pose proof (split_dot_once_qualified s t H0) as Hs.
    rewrite <- H, Hsplit in Hs. congruence.
  - subst requested. pose proof (split_dot_once_qualified s t H0) as Hs.
    rewrite <- H, Hsplit in Hs. congruence.
  - revert H. unfold call_tool_resolve. run. rewrite Hdot, Hsplit.
    destruct (_ && _); [discriminate|].
    destruct (negb _); [discriminate|].
    destruct (Dict.get sn (servers w)); [|discriminate].
    intros [= <- <- _ _]. reflexivity.
  - revert H. unfold call_tool_resolve. run. rewrite Hdot, Hsplit.
    destruct (_ && _); [discriminate|].
    destruct (negb _); [discriminate|].
    destruct (Dict.get sn (servers w)); [|discriminate].
    intros [= <- <- _ _]. reflexivity.
Qed.

Lemma C10_split_at_first_separator_witness :
  exists server_name tool_name,
    "A.B.tool" = server_name +:+ "." +:+ tool_name /\
    contains_dot server_name = false /\
    split_dot_once "A.B.tool" = [server_name; tool_name] /\
    (forall s t, "A.B.tool" = s +:+ "." +:+ t -> contains_dot s = false ->
                 s = server_name /\ t = tool_name) /\
    (forall sn tn targets w',
        call_tool_resolve Examples.friendly "A.B.tool" Examples.empty_world
        = (Ok (Targets sn tn targets), w') ->
        sn = Some server_name /\ tn = tool_name).
Proof.
  apply (C10_split_at_first_separator Examples.friendly "A.B.tool" Examples.empty_world).
  reflexivity.
Defined.

(** ** The invocation loop only talks to its candidates *)

Lemma call_tool_loop_events E tool_name data targets w r w' :
  call_tool_loop E tool_name data targets w = (r, w') ->
  exists evs,
    trace w' = (evs ++ trace w)%list /\
    Forall (fun e => exists s, In s targets /\
                        (e = EvListTools (base_url s) \/
                         e = EvCallTool (base_url s) tool_name data)) evs /\
    state_unchanged w w'.
Proof.
  revert w. induction targets as [|s rest IH]; intros w; simpl.
  - run. intros [= <- <-]. exists []. repeat split; auto.
  - unfold client_list_tools, client_call_tool. run.
    assert (Hrest : forall w1 evs1,
      trace w1 = (evs1 ++ trace w)%list ->
      Forall (fun e => e = EvListTools (base_url s) \/
                       e = EvCallTool (base_url s) tool_name data) evs1 ->
      state_unchanged w w1 ->
      call_tool_loop E tool_name data rest w1 = (r, w') ->
      exists evs,
        trace w' = (evs ++ trace w)%list /\
        Forall (fun e => exists s0, In s0 (s :: rest) /\
                        (e = EvListTools (base_url s0) \/
                         e = EvCallTool (base_url s0) tool_name data)) evs /\
        state_unchanged w w').
    { intros w1 evs1 Htr Hev (Hs & Hh & Hf) Hloop.
      destruct (IH _ Hloop) as (evs & Htr' & Hev' & Hs' & Hh' & Hf').
      exists (evs ++ evs1)%list. split; [|split].
      - rewrite Htr', Htr. now rewrite app_assoc.
      - apply Forall_app. split.
        + eapply Forall_impl; [exact Hev'|]. intros e (s0 & Hin & He).
          exists s0. split; [now right|exact He].
        + eapply Forall_impl; [exact Hev|]. intros e He.
          exists s. split; [now left|exact He].
      - unfold state_unchanged. rewrite Hs', Hh', Hf'. auto. }
    destruct (rpc_list_tools E (trace w) (base_url s)) as [tools|[c m]]; simpl.
    + destruct (has_tool tool_name tools); simpl.
      * destruct (rpc_call_tool E _ (base_url s) tool_name data) as [res|[c m]]; simpl.
        -- intros [= <- <-]. simpl.
           exists [EvCallTool (base_url s) tool_name data; EvListTools (base_url s)].
           split; [reflexivity|]. split; [|repeat split].
           forall_list; exists s; simpl; auto.
        -- destruct (exn_class_eqb c RequestException); simpl.
           ++ intros Hloop.
              refine (Hrest _ [EvCallTool (base_url s) tool_name data; EvListTools (base_url s)]
                            _ _ _ Hloop);
                [reflexivity| forall_list; auto | repeat split].
           ++ intros [= <- <-]. simpl.
              exists [EvCallTool (base_url s) tool_name data; EvListTools (base_url s)].
              split; [reflexivity|]. split; [|repeat split].
              forall_list; exists s; simpl; auto.
      * intros Hloop.
        refine (Hrest _ [EvListTools (base_url s)] _ _ _ Hloop);
          [reflexivity| forall_list; auto | repeat split].
    + destruct (exn_class_eqb c RequestException); simpl.
      * intros Hloop.
        refine (Hrest _ [EvListTools (base_url s)] _ _ _ Hloop);
          [reflexivity| forall_list; auto | repeat split].
      * intros [= <- <-]. simpl. exists [EvListTools (base_url s)].
        split; [reflexivity|]. split; [|repeat split].
        forall_list; exists s; simpl; auto.
Qed.

(** ** C1: the consent tool is served by the privileged backend only *)

(** C1. A request for [server_name.ask_for_permission] with a server name
    other than the reserved one is answered 403 in the world it arrived
    in: nothing was added to the trace, so no backend was contacted.  An
    unqualified [ask_for_permission] has the privileged entry as its only
    candidate, and every interaction of the call is a tool listing or a
    tool call at that entry's address; when no privileged entry exists the
    lookup raises [KeyError] before any interaction. *)
Theorem C1_consent_tool_boundary
    (E : Env) (server_name : string) (data : json) (w : World) :
  contains_dot server_name = false ->
  server_name <> PERMISSION_SERVER_NAME ->
  call_tool E (Some (server_name +:+ "." +:+ "ask_for_permission")) data w
    = (Ok consent_denied, w)
  /\
  match Dict.get PERMISSION_SERVER_NAME (servers w) with
  | Some privileged =>
      call_tool_resolve E "ask_for_permission" w
        = (Ok (Targets None "ask_for_permission" [privileged]), w) /\
      exists evs,
        trace (snd (call_tool E (Some "ask_for_permission") data w))
          = (evs ++ trace w)%list /\
        Forall (fun e => e = EvListTools (base_url privileged) \/
                         e = EvCallTool (base_url privileged) "ask_for_permission" data)
               evs
  | None =>
      call_tool E (Some "ask_for_permission") data w
        = (Raise (Exn KeyError PERMISSION_SERVER_NAME), w)
  end.
Proof.
  intros Hdot Hne. split.
  - unfold call_tool, call_tool_resolve. run.
    rewrite contains_dot_qualified, (split_dot_once_qualified _ _ Hdot).
    rewrite String.eqb_refl.
    apply String.eqb_neq in Hne. rewrite Hne. reflexivity.
  - destruct (Dict.get PERMISSION_SERVER_NAME (servers w)) as [p|] eqn:Hp.
    + assert (Hres : call_tool_resolve E "ask_for_permission" w
                     = (Ok (Targets None "ask_for_permission" [p]), w)).
      { unfold call_tool_resolve. run. simpl. rewrite Hp. reflexivity. }
      split; [exact Hres|].
      unfold call_tool. unfold bind at 1. rewrite Hres.
      unfold bind.
      destruct (call_tool_loop E "ask_for_permission" data [p] w) as [r w'] eqn:Hloop.
      destruct (call_tool_loop_events _ _ _ _ _ _ _ Hloop) as (evs & Htr & Hev & _).
      exists evs. split.
      * destruct r as [[res|]|e]; simpl; exact Htr.
      * eapply Forall_impl; [exact Hev|].
        intros e (s & [<-|[]] & He). exact He.
    + unfold call_tool, call_tool_resolve. run. simpl. rewrite Hp. reflexivity.
Qed.

Lemma C1_consent_tool_boundary_witness :
  call_tool Examples.friendly (Some ("Evil" +:+ "." +:+ "ask_for_permission")) JNull
            (Examples.world_of [("Evil", Examples.evil);
                                (PERMISSION_SERVER_NAME, Examples.privileged)])
    = (Ok consent_denied,
       Examples.world_of [("Evil", Examples.evil);
                          (PERMISSION_SERVER_NAME, Examples.privileged)])
  /\
  (call_tool_resolve Examples.friendly "ask_for_permission"
     (Examples.world_of [("Evil", Examples.evil);
                         (PERMISSION_SERVER_NAME, Examples.privileged)])
   = (Ok (Targets None "ask_for_permission" [Examples.privileged]),
      Examples.world_of [("Evil", Examples.evil);
                         (PERMISSION_SERVER_NAME, Examples.privileged)]) /\
   exists evs,
     trace (snd (call_tool Examples.friendly (Some "ask_for_permission") JNull
                   (Examples.world_of [("Evil", Examples.evil);
                                       (PERMISSION_SERVER_NAME, Examples.privileged)])))
       = (evs ++ [])%list /\
     Forall (fun e => e = EvListTools (base_url Examples.privileged) \/
                      e = EvCallTool (base_url Examples.privileged)
                                     "ask_for_permission" JNull) evs).
Proof.
  apply (C1_consent_tool_boundary Examples.friendly "Evil" JNull
           (Examples.world_of [("Evil", Examples.evil);
                               (PERMISSION_SERVER_NAME, Examples.privileged)])).
  - reflexivity.
  - discriminate.
Defined.

(** ** C2: what [register_server] rejects *)

(** C2, as stated, fails: a request under the reserved name that lacks a
    required field is answered 400, not 403, because the field check comes
    first. *)
Lemma C2_reserved_name_without_url :
  server_name (mkRegisterRequest None (Some PERMISSION_SERVER_NAME) None)
    = Some PERMISSION_SERVER_NAME /\
  register_server Examples.friendly
      (mkRegisterRequest None (Some PERMISSION_SERVER_NAME) None)
      Examples.empty_world
    = (Ok (mkResponse 400 (error_body "Missing required fields")),
       Examples.empty_world).
Proof. split; reflexivity. Qed.

(** C2, amended. A request that lacks a required field is answered 400; a
    request that has all three and whose name is the reserved one is
    answered 403.  In both cases the world is the one the request arrived
    in: table, health cache, snapshot file and trace are untouched. *)
Theorem C2_register_rejections (E : Env) (data : RegisterRequest) (w : World) :
  (missing_field data = true ->
   register_server E data w
     = (Ok (mkResponse 400 (error_body "Missing required fields")), w))
  /\
  (missing_field data = false ->
   server_name data = Some PERMISSION_SERVER_NAME ->
   register_server E data w
     = (Ok (mkResponse 403 (error_body "Reserved server name")), w)).
Proof.
  unfold missing_field, register_server.
  destruct data as [[u|] [n|] [d|]]; simpl; split; intros H; try discriminate;
    try reflexivity.
  intros [= ->]. reflexivity.
Qed.

Lemma C2_register_rejections_witness :
  register_server Examples.friendly
      (mkRegisterRequest (Some "http://127.0.0.1") None (Some "d"))
      Examples.empty_world
    = (Ok (mkResponse 400 (error_body "Missing required fields")),
       Examples.empty_world)
  /\
  register_server Examples.friendly
      (mkRegisterRequest (Some "http://127.0.0.1") (Some PERMISSION_SERVER_NAME) (Some "d"))
      Examples.empty_world
    = (Ok (mkResponse 403 (error_body "Reserved server name")),
       Examples.empty_world).
Proof.
  split.
  - apply (proj1 (C2_register_rejections Examples.friendly
             (mkRegisterRequest (Some "http://127.0.0.1") None (Some "d"))
             Examples.empty_world)).
    reflexivity.
  - apply (proj2 (C2_register_rejections Examples.friendly
             (mkRegisterRequest (Some "http://127.0.0.1")
                                (Some PERMISSION_SERVER_NAME) (Some "d"))
             Examples.empty_world)); reflexivity.
Defined.

(** ** C3: the health prober and its cache *)

Lemma probe_health_spec E server w :
  match http_get E (trace w) (health_url server) 5 with
  | Ok status =>
      probe_health E server w
      = (Ok (status =? 200), probed E server (status =? 200) (trace w) w)
  | Raise e =>
      if exn_class_eqb (exn_cls e) RequestException
      then probe_health E server w = (Ok false, probed E server false (trace w) w)
      else probe_health E server w = (Raise e, probe_aborted server (trace w) w)
  end.
Proof.
  unfold probe_health, requests_get, datetime_now, probed, probe_aborted, health_url.
  run.
  destruct (http_get E (trace w) _ 5) as [status|e]; simpl; [reflexivity|].
  destruct (exn_class_eqb (exn_cls e) RequestException); reflexivity.
Qed.

Lemma check_server_health_cached E server w last_check is_healthy :
  health_cache w !! name server = Some (last_check, is_healthy) ->
  clock E (trace w) - last_check < TTL ->
  check_server_health E server w = (Ok is_healthy, log EvNow w).
Proof.
  intros Hc Hfresh. unfold check_server_health, datetime_now. run.
  rewrite Hc. simpl. unfold timedelta_seconds. unfold TTL in Hfresh.
  destruct (Z.ltb_spec (clock E (trace w) - last_check) (30 * 1000000));
    [reflexivity|lia].
Qed.

(** Without a fresh record the check is the probe, started after the
    history [before]. *)
Lemma check_server_health_probes E server w :
  (health_cache w !! name server = None \/
   exists last_check is_healthy,
     health_cache w !! name server = Some (last_check, is_healthy) /\
     TTL <= clock E (trace w) - last_check) ->
  exists before,
    (before = trace w \/ before = EvNow :: trace w) /\
    match http_get E before (health_url server) 5 with
    | Ok status =>
        check_server_health E server w
        = (Ok (status =? 200), probed E server (status =? 200) before w)
    | Raise e =>
        if exn_class_eqb (exn_cls e) RequestException
        then check_server_health E server w
             = (Ok false, probed E server false before w)
        else check_server_health E server w
             = (Raise e, probe_aborted server before w)
    end.
Proof.
  intros [Hc|(last & v & Hc & Hstale)].
  - exists (trace w). split; [now left|].
    pose proof (probe_health_spec E server w) as Hp.
    unfold check_server_health. run. rewrite Hc. exact Hp.
  - exists (EvNow :: trace w). split; [now right|].
    pose proof (probe_health_spec E server (log EvNow w)) as Hp.
    unfold check_server_health, datetime_now. run. rewrite Hc. simpl.
    unfold timedelta_seconds. unfold TTL in Hstale.
    destruct (Z.ltb_spec (clock E (trace w) - last) (30 * 1000000)); [lia|].
    exact Hp.
Qed.

(** The three ways a health check ends. *)
Lemma check_server_health_outcome E s w :
  (exists last v,
      health_cache w !! name s = Some (last, v) /\
      clock E (trace w) - last < TTL /\
      check_server_health E s w = (Ok v, log EvNow w))
  \/
  (exists before verdict,
      (before = trace w \/ before = EvNow :: trace w) /\
      check_server_health E s w = (Ok verdict, probed E s verdict before w))
  \/
  (exists before e,
      (before = trace w \/ before = EvNow :: trace w) /\
      uncaught e /\
      http_get E before (health_url s) 5 = Raise e /\
      check_server_health E s w = (Raise e, probe_aborted s before w)).
Proof.
  assert (Hprobe :
    (health_cache w !! name s = None \/
     exists last v, health_cache w !! name s = Some (last, v) /\
                    TTL <= clock E (trace w) - last) ->
    (exists before verdict,
        (before = trace w \/ before = EvNow :: trace w) /\
        check_server_health E s w = (Ok verdict, probed E s verdict before w))
    \/
    (exists before e,
        (before = trace w \/ before = EvNow :: trace w) /\
        uncaught e /\
        http_get E before (health_url s) 5 = Raise e /\
        check_server_health E s w = (Raise e, probe_aborted s before w))).
  { intros Hstale.
    destruct (check_server_health_probes E s w Hstale) as (before & Hb & Hp).
    destruct (http_get E before (health_url s) 5) as [status|e] eqn:Hget.
    - left. eauto.
    - destruct (exn_class_eqb (exn_cls e) RequestException) eqn:He.
      + left. eauto.
      + right. exists before, e. auto. }
  destruct (health_cache w !! name s) as [[last v]|] eqn:Hc.
  - destruct (Z.lt_ge_cases (clock E (trace w) - last) TTL) as [Hfresh|Hstale].
    + left. exists last, v. repeat split; auto.
      now apply (check_server_health_cached E s w last v).
    + right. apply Hprobe. right. eauto.
  - right. apply Hprobe. now left.
Qed.

(** A health check leaves the table and the snapshot file alone. *)
Lemma check_server_health_servers E s w r w' :
  check_server_health E s w = (r, w') ->
  servers w' = servers w /\ STORAGE_FILE w' = STORAGE_FILE w.
Proof.
  intros Hc.
  destruct (check_server_health_outcome E s w)
    as [(last & v & _ & _ & Hc') | [(b & v & Hb & Hc') | (b & e & Hb & _ & _ & Hc')]];
    revert Hc; rewrite Hc'; intros [= <- <-]; split; reflexivity.
Qed.

(** C3, as stated, fails on the status: the code takes status 200 for
    healthy and nothing else, so a health endpoint that answers 204, a
    success status, is reported unhealthy. *)
Lemma C3_status_204_is_unhealthy :
  http_get Examples.no_content [] (health_url Examples.echo) 5 = Ok 204 /\
  check_server_health Examples.no_content Examples.echo Examples.empty_world
    = (Ok false,
       probed Examples.no_content Examples.echo false [] Examples.empty_world).
Proof. split; reflexivity. Qed.

(** C3, amended. With a record younger than 30 seconds the cached verdict
    is returned and the only interaction is the reading of the clock.
    With no record, or one at least 30 seconds old, exactly one [GET] of
    the health path with timeout 5 is made.  When it answers, the verdict
    is [true] for status 200 and [false] for every other status; when it
    fails with a transport error the verdict is [false]; in both cases the
    record is replaced by the verdict and a clock reading taken after the
    probe, and the verdict is returned.  An exception of the probe that is
    not a transport error is not caught: it leaves the check, and nothing
    is recorded. *)
Theorem C3_health_cache (E : Env) (server : Server) (w : World) :
  (forall last_check is_healthy,
      health_cache w !! name server = Some (last_check, is_healthy) ->
      clock E (trace w) - last_check < TTL ->
      check_server_health E server w = (Ok is_healthy, log EvNow w))
  /\
  ((health_cache w !! name server = None \/
    exists last_check is_healthy,
      health_cache w !! name server = Some (last_check, is_healthy) /\
      TTL <= clock E (trace w) - last_check) ->
   exists before,
     (before = trace w \/ before = EvNow :: trace w) /\
     (forall status,
         http_get E before (health_url server) 5 = Ok status ->
         check_server_health E server w
         = (Ok (status =? 200), probed E server (status =? 200) before w)) /\
     (forall msg,
         http_get E before (health_url server) 5 = Raise (Exn RequestException msg) ->
         check_server_health E server w
         = (Ok false, probed E server false before w)) /\
     (forall e,
         http_get E before (health_url server) 5 = Raise e ->
         uncaught e ->
         check_server_health E server w
         = (Raise e, probe_aborted server before w))).
Proof.
  split.
  - intros last v. apply check_server_health_cached.
  - intros Hstale.
    destruct (check_server_health_probes E server w Hstale) as (before & Hb & Hp).
    exists before. split; [exact Hb|]. repeat split.
    + intros status Hget. now rewrite Hget in Hp.
    + intros msg Hget. now rewrite Hget in Hp.
    + intros e Hget He. rewrite Hget in Hp. unfold uncaught in He.
      now rewrite He in Hp.
Qed.

Lemma C3_health_cache_witness :
  check_server_health Examples.friendly Examples.echo
      (mkWorld [] {[ "Echo" := (0, false) ]} None [EvNow])
    = (Ok false, log EvNow (mkWorld [] {[ "Echo" := (0, false) ]} None [EvNow]))
  /\
  exists before,
    (before = trace Examples.empty_world
     \/ before = EvNow :: trace Examples.empty_world) /\
    (forall status,
        http_get Examples.friendly before (health_url Examples.echo) 5 = Ok status ->
        check_server_health Examples.friendly Examples.echo Examples.empty_world
        = (Ok (status =? 200),
           probed Examples.friendly Examples.echo (status =? 200) before
                  Examples.empty_world)) /\
    (forall msg,
        http_get Examples.friendly before (health_url Examples.echo) 5
        = Raise (Exn RequestException msg) ->
        check_server_health Examples.friendly Examples.echo Examples.empty_world
        = (Ok false,
           probed Examples.friendly Examples.echo false before Examples.empty_world)) /\
    (forall e,
        http_get Examples.friendly before (health_url Examples.echo) 5 = Raise e ->
        uncaught e ->
        check_server_health Examples.friendly Examples.echo Examples.empty_world
        = (Raise e, probe_aborted Examples.echo before Examples.empty_world)).
Proof.
  split.
  - apply (proj1 (C3_health_cache Examples.friendly Examples.echo
                    (mkWorld [] {[ "Echo" := (0, false) ]} None [EvNow]))
             0 false).
    + reflexivity.
    + reflexivity.
  - apply (proj2 (C3_health_cache Examples.friendly Examples.echo
                    Examples.empty_world)).
    left. reflexivity.
Defined.

(** The three ends of a probe, run: status 200, a refused connection, and
    a host the client library cannot parse. *)
Example probe_outcomes :
  fst (check_server_health Examples.friendly Examples.echo Examples.empty_world)
    = Ok true /\
  fst (check_server_health Examples.hostile Examples.echo Examples.empty_world)
    = Ok false /\
  fst (check_server_health Examples.unparsable Examples.echo Examples.empty_world)
    = Raise (Exn OtherException "LocationParseError").
Proof. repeat split; vm_compute; reflexivity. Qed.

(** ** C8: port allocation *)

(** The recursion on the number of ports left is the source's [while]. *)
Lemma scan_ports_while E host (p end_port : Z) :
  scan_ports E (Z.to_nat (end_port - p + 1)) host p
  = if p <=? end_port
    then try_except (sock_bind E host p ;;; ret p) SocketError
                    (scan_ports E (Z.to_nat (end_port - (p + 1) + 1)) host (p + 1))
    else raise RuntimeError no_port_message.
Proof.
  destruct (Z.leb_spec p end_port) as [Hle|Hgt].
  - replace (Z.to_nat (end_port - p + 1))
      with (S (Z.to_nat (end_port - (p + 1) + 1))) by lia.
    reflexivity.
  - replace (Z.to_nat (end_port - p + 1)) with O by lia. reflexivity.
Qed.

Lemma failed_binds_step host p n tr :
  0 < n ->
  (failed_binds host p n ++ tr)%list
  = (failed_binds host (p + 1) (n - 1) ++ EvBind host p false :: tr)%list.
Proof.
  intros Hn. unfold failed_binds. rewrite (seqZ_cons p n) by lia. simpl.
  rewrite <- app_assoc. simpl.
  now replace (Z.succ p) with (p + 1) by lia; replace (Z.pred n) with (n - 1) by lia.
Qed.

Lemma scan_ports_spec E host (left : nat) (p : Z) (w : World) :
  0 <= p -> p + Z.of_nat left - 1 <= 65535 ->
  match scan_ports E left host p w with
  | (Ok q, w') =>
      p <= q < p + Z.of_nat left /\
      trace w' = (EvBind host q true :: failed_binds host p (q - p) ++ trace w)%list /\
      state_unchanged w w'
  | (Raise e, w') =>
      e = Exn RuntimeError no_port_message /\
      trace w' = (failed_binds host p (Z.of_nat left) ++ trace w)%list /\
      state_unchanged w w'
  end.
Proof.
  revert p w. induction left as [|left IH]; intros p w Hp Hhi.
  - simpl. run. repeat split.
  - cbn [scan_ports]. unfold sock_bind. run.
    replace ((p <? 0) || (65535 <? p)) with false
      by (symmetry; apply orb_false_intro; lia).
    destruct (bind_ok E (trace w) host p) eqn:Hb; simpl.
    + split; [lia|]. replace (p - p) with 0 by lia. repeat split.
    + specialize (IH (p + 1) (log (EvBind host p false) w)).
      destruct (scan_ports E left host (p + 1) _) as [[q|e] w'].
      * destruct IH as (Hq & Htr & Hs & Hh & Hf); [lia|lia|].
        split; [lia|]. split; [|repeat split; assumption].
        rewrite Htr. simpl. f_equal.
        rewrite (failed_binds_step host p (q - p)) by lia.
        now replace (q - p - 1) with (q - (p + 1)) by lia.
      * destruct IH as (He & Htr & Hs & Hh & Hf); [lia|lia|].
        split; [exact He|]. split; [|repeat split; assumption].
        rewrite Htr. simpl.
        rewrite (failed_binds_step host p (Z.of_nat (S left))) by lia.
        now replace (Z.of_nat (S left) - 1) with (Z.of_nat left) by lia.
Qed.




(** The allocator at work: the draw is 5007, ports below 5010 are taken. *)
Example generate_port_friendly :
  fst (_generate_port Examples.friendly "http://127.0.0.1" 5000 65535
         Examples.empty_world) = Ok 5010.
Proof. vm_compute. reflexivity. Qed.

(** A draw near the top of the range fails although lower ports are free. *)
Example generate_port_top_of_range :
  fst (_generate_port
         (mkEnv (fun _ => 0) (fun _ => 65535 - 5000) (fun _ _ p => p <? 65535)
                (fun _ => None) (fun _ _ _ => Ok 200)
                (fun _ _ => Ok []) (fun _ _ _ _ => Ok []))
         "http://127.0.0.1" 5000 65535 Examples.empty_world)
  = Raise (Exn RuntimeError no_port_message).
Proof. vm_compute. reflexivity. Qed.

(** ** The snapshot document *)

Lemma save_servers_spec (w : World) :
  save_servers w
  = (Ok tt, mkWorld (servers w) (health_cache w)
                    (Some (JsonDoc (snapshot_of (servers w)))) (trace w)).
Proof. reflexivity. Qed.

Lemma get_snapshot_member (k : string) (table : dict Server) :
  Dict.get k (map (fun item => (fst item, vars (snd item))) table)
  = option_map vars (Dict.get k table).
Proof.
  induction table as [|[k' s] table IH]; simpl; auto.
  destruct (String.eqb k k'); auto.
Qed.

(** ** C7: registering a name again *)

Lemma register_server_success E data w resp w' :
  register_server E data w = (Ok resp, w') ->
  registered resp ->
  exists n u d p w1,
    data = mkRegisterRequest (Some u) (Some n) (Some d) /\
    n <> PERMISSION_SERVER_NAME /\
    _generate_port E u 5000 65535 w = (Ok p, w1) /\
    servers w' = Dict.set n (mkServer n d u p) (servers w1) /\
    health_cache w' = health_cache w1 /\
    trace w' = trace w1 /\
    STORAGE_FILE w' = Some (JsonDoc (snapshot_of (servers w'))).
Proof.
  unfold register_server, registered.
  destruct data as [[u|] [n|] [d|]]; run; simpl;
    try (intros [= <- <-]; simpl; discriminate).
  destruct (String.eqb n PERMISSION_SERVER_NAME) eqn:Hn.
  - intros [= <- <-]; simpl; discriminate.
  - destruct (_generate_port E u 5000 65535 w) as [[p|e] w1] eqn:Hgen;
      [|discriminate].
    intros [= <- <-] _. exists n, u, d, p, w1. simpl.
    apply String.eqb_neq in Hn. repeat split; auto.
Qed.

Lemma scan_ports_state E host left p w r w' :
  scan_ports E left host p w = (r, w') -> state_unchanged w w'.
Proof.
  revert p w. induction left as [|left IH]; intros p w; simpl.
  - run. intros [= <- <-]. repeat split.
  - unfold sock_bind. run.
    destruct ((p <? 0) || (65535 <? p)); simpl; [intros [= <- <-]; repeat split|].
    destruct (bind_ok E (trace w) host p); simpl.
    + intros [= <- <-]. repeat split.
    + intros H. apply IH in H. exact H.
Qed.

Lemma generate_port_state E u a b w r w' :
  _generate_port E u a b w = (r, w') -> state_unchanged w w'.
Proof.
  unfold _generate_port, random_randint. run.
  destruct (b <? a); [intros [= <- <-]; repeat split|].
  intros H. apply scan_ports_state in H. exact H.
Qed.

(** C7, as stated, fails on the port: the second allocation is a fresh
    run of the allocator, and nothing keeps it from returning the number
    the first run returned.  Here both registrations succeed and both get
    port 5010. *)
Lemma C7_same_port_number :
  register_server Examples.friendly Examples.first_echo Examples.empty_world
    = (Ok (mkResponse 201
             (JObj [("message", JStr "Server registered successfully");
                    ("server", server_info
                       (mkServer "Echo" "first" "http://127.0.0.1" 5010))])),
       Examples.after_first) /\
  register_server Examples.friendly Examples.second_echo Examples.after_first
    = (Ok (mkResponse 201
             (JObj [("message", JStr "Server registered successfully");
                    ("server", server_info
                       (mkServer "Echo" "second" "http://10.0.0.2" 5010))])),
       Examples.after_second) /\
  Dict.get "Echo" (servers Examples.after_first)
    = Some (mkServer "Echo" "first" "http://127.0.0.1" 5010) /\
  Dict.get "Echo" (servers Examples.after_second)
    = Some (mkServer "Echo" "second" "http://10.0.0.2" 5010).
Proof. repeat split; vm_compute; reflexivity. Qed.

(** C7, amended. Take two successful registrations under one name, the
    second arriving in any later world [wmid].  Afterwards the entry for
    the name is the second request's url and description with the port that
    [_generate_port] returned when run for the second request (a number
    that may or may not differ from the first's); the snapshot
    file holds the document of the new table, in which the name maps to
    that record.  Nothing of the first record is left: when the table was
    not changed in between, the new table is the one a single registration
    of the second request would have produced from the initial table. *)
Theorem C7_reregistration_replaces
    (E : Env) (first second : RegisterRequest) (n : string)
    (w0 w1 wmid w2 : World) (resp1 resp2 : Response) :
  server_name first = Some n ->
  server_name second = Some n ->
  register_server E first w0 = (Ok resp1, w1) -> registered resp1 ->
  register_server E second wmid = (Ok resp2, w2) -> registered resp2 ->
  exists u2 d2 p2 wmid',
    second = mkRegisterRequest (Some u2) (Some n) (Some d2) /\
    _generate_port E u2 5000 65535 wmid = (Ok p2, wmid') /\
    Dict.get n (servers w2) = Some (mkServer n d2 u2 p2) /\
    servers w2 = Dict.set n (mkServer n d2 u2 p2) (servers wmid) /\
    STORAGE_FILE w2 = Some (JsonDoc (snapshot_of (servers w2))) /\
    (exists members,
        snapshot_of (servers w2) = JObj members /\
        Dict.get n members = Some (vars (mkServer n d2 u2 p2))) /\
    (servers wmid = servers w1 ->
     servers w2 = Dict.set n (mkServer n d2 u2 p2) (servers w0)).
Proof.
  intros Hn1 Hn2 Hreg1 Hok1 Hreg2 Hok2.
  destruct (register_server_success _ _ _ _ _ Hreg1 Hok1)
    as (n1 & u1 & d1 & p1 & w0' & -> & _ & Hgen1 & Hs1 & _ & _ & _).
  destruct (register_server_success _ _ _ _ _ Hreg2 Hok2)
    as (n2' & u2 & d2 & p2 & wmid' & -> & _ & Hgen2 & Hs2 & _ & _ & Hfile).
  simpl in Hn1, Hn2. injection Hn1 as ->. injection Hn2 as ->.
  destruct (generate_port_state _ _ _ _ _ _ _ Hgen1) as (Hs0 & _).
  destruct (generate_port_state _ _ _ _ _ _ _ Hgen2) as (Hsmid & _).
  assert (Htable : servers w2 = Dict.set n (mkServer n d2 u2 p2) (servers wmid))
    by now rewrite Hs2, Hsmid.
  exists u2, d2, p2, wmid'. repeat split; auto.
  - rewrite Htable. apply DictFacts.get_set_eq.
  - eexists. split; [reflexivity|].
    rewrite get_snapshot_member, Htable, DictFacts.get_set_eq. reflexivity.
  - intros Hsame. rewrite Htable, Hsame, Hs1, Hs0. apply DictFacts.set_set.
Qed.

Lemma C7_reregistration_replaces_witness :
  exists u2 d2 p2 wmid',
    Examples.second_echo = mkRegisterRequest (Some u2) (Some "Echo") (Some d2) /\
    _generate_port Examples.friendly u2 5000 65535 Examples.after_first
      = (Ok p2, wmid') /\
    Dict.get "Echo" (servers Examples.after_second)
      = Some (mkServer "Echo" d2 u2 p2) /\
    servers Examples.after_second
      = Dict.set "Echo" (mkServer "Echo" d2 u2 p2) (servers Examples.after_first) /\
    STORAGE_FILE Examples.after_second
      = Some (JsonDoc (snapshot_of (servers Examples.after_second))) /\
    (exists members,
        snapshot_of (servers Examples.after_second) = JObj members /\
        Dict.get "Echo" members = Some (vars (mkServer "Echo" d2 u2 p2))) /\
    (servers Examples.after_first = servers Examples.after_first ->
     servers Examples.after_second
     = Dict.set "Echo" (mkServer "Echo" d2 u2 p2) (servers Examples.empty_world)).
Proof.
  apply (C7_reregistration_replaces Examples.friendly
           Examples.first_echo Examples.second_echo "Echo"
           Examples.empty_world Examples.after_first
           Examples.after_first Examples.after_second
           (mkResponse 201 (JObj [("message", JStr "Server registered successfully");
                                  ("server", server_info
                                     (mkServer "Echo" "first" "http://127.0.0.1" 5010))]))
           (mkResponse 201 (JObj [("message", JStr "Server registered successfully");
                                  ("server", server_info
                                     (mkServer "Echo" "second" "http://10.0.0.2" 5010))]))).
  - reflexivity.
  - reflexivity.
  - vm_compute. reflexivity.
  - reflexivity.
  - vm_compute. reflexivity.
  - reflexivity.
Defined.

(** ** C9: the snapshot round trip *)

Lemma fold_set_nodup {V} (l acc : dict V) :
  NoDup (Dict.keys (acc ++ l)%list) ->
  fold_left (fun d kv => Dict.set (fst kv) (snd kv) d) l acc = (acc ++ l)%list.
Proof.
  revert acc. induction l as [|[k v] l IH]; intros acc Hnd; simpl.
  - now rewrite app_nil_r.
  - assert (Hk : ~ In k (Dict.keys acc)).
    { unfold Dict.keys in *. rewrite map_app in Hnd. simpl in Hnd.
      apply NoDup_app in Hnd. destruct Hnd as (_ & Hdisj & _).
      intros Hin. apply (Hdisj k); [now apply list_elem_of_In|]. now left. }
    rewrite DictFacts.set_absent by exact Hk.
    rewrite IH; rewrite <- app_assoc; [reflexivity|exact Hnd].
Qed.

Lemma of_pairs_wf {V} (l : dict V) : Dict.wf l -> Dict.of_pairs l = l.
Proof. intros Hwf. unfold Dict.of_pairs. now rewrite fold_set_nodup. Qed.

Lemma keys_snapshot (table : dict Server) :
  Dict.keys (map (fun item => (fst item, vars (snd item))) table) = Dict.keys table.
Proof. unfold Dict.keys. rewrite map_map. reflexivity. Qed.

Lemma values_snapshot (table : dict Server) :
  Dict.values (map (fun item => (fst item, vars (snd item))) table)
  = map vars (Dict.values table).
Proof. unfold Dict.values. now rewrite !map_map. Qed.

Lemma Server_from_vars (s : Server) : Server_from (vars s) = Some s.
Proof. destruct s. reflexivity. Qed.

Lemma load_entries_all_pass E (table loaded : dict Server) (w : World) :
  NoDup (Dict.keys (loaded ++ table)%list) ->
  keyed_by_name table ->
  all_pass E (Dict.values table) w = true ->
  fst (load_entries E (map vars (Dict.values table)) loaded w)
  = Ok (loaded ++ table)%list.
Proof.
  revert loaded w. induction table as [|[k s] table IH]; intros loaded w Hnd Hkey Hpass.
  - simpl. now rewrite app_nil_r.
  - unfold Dict.values in *. cbn [map snd load_entries all_pass] in *.
    rewrite Server_from_vars. run.
    destruct (check_server_health E s w) as [[[|]|e] w1]; try discriminate.
    cbn [fst snd].
    apply Forall_cons in Hkey. destruct Hkey as [Hk Hkey]. simpl in Hk. subst k.
    assert (Hfresh : ~ In (name s) (Dict.keys loaded)).
    { unfold Dict.keys in *. rewrite map_app in Hnd. simpl in Hnd.
      apply NoDup_app in Hnd. destruct Hnd as (_ & Hdisj & _).
      intros Hin. apply (Hdisj (name s)); [now apply list_elem_of_In|]. now left. }
    rewrite DictFacts.set_absent by exact Hfresh.
    rewrite IH; auto; rewrite <- app_assoc; [reflexivity|exact Hnd].
Qed.

(** C9. Take a table with unique keys in which every entry is filed under
    its server's name, and save it.  A service that starts from the file
    that was written, whatever its own table and cache, and finds every
    saved backend passing its health check during the load, loads the
    table itself: the same names in the same order, each with the same
    url, port and description. *)
Theorem C9_snapshot_round_trip (E : Env) (w restart : World) :
  Dict.wf (servers w) ->
  keyed_by_name (servers w) ->
  STORAGE_FILE restart = STORAGE_FILE (snd (save_servers w)) ->
  all_pass E (Dict.values (servers w)) restart = true ->
  fst (load_servers E restart) = Ok (servers w).
Proof.
  intros Hwf Hkey Hfile Hpass. rewrite save_servers_spec in Hfile.
  cbn [snd STORAGE_FILE] in Hfile.
  unfold load_servers. unfold bind at 1. unfold read_storage.
  rewrite Hfile. cbn [snapshot_of].
  rewrite of_pairs_wf by (unfold Dict.wf; now rewrite keys_snapshot).
  rewrite values_snapshot.
  now apply (load_entries_all_pass E (servers w) []).
Qed.

Lemma C9_snapshot_round_trip_witness :
  fst (load_servers Examples.friendly
         (mkWorld [("Stale", Examples.evil)] empty
            (STORAGE_FILE
               (snd (save_servers
                       (Examples.world_of
                          [("Echo", Examples.echo);
                           (PERMISSION_SERVER_NAME, Examples.privileged)]))))
            []))
  = Ok [("Echo", Examples.echo); (PERMISSION_SERVER_NAME, Examples.privileged)].
Proof.
  apply (C9_snapshot_round_trip Examples.friendly
           (Examples.world_of [("Echo", Examples.echo);
                               (PERMISSION_SERVER_NAME, Examples.privileged)])
           (mkWorld [("Stale", Examples.evil)] empty
              (STORAGE_FILE
                 (snd (save_servers
                         (Examples.world_of
                            [("Echo", Examples.echo);
                             (PERMISSION_SERVER_NAME, Examples.privileged)]))))
              [])).
  - unfold Dict.wf. simpl. apply (bool_decide_unpack _). vm_compute. reflexivity.
  - repeat constructor.
  - reflexivity.
  - vm_compute. reflexivity.
Defined.

(** The round trip needs the entries to be filed under their own names: a
    table with an entry under another key loads back under the name. *)
Example round_trip_rekeys :
  fst (load_servers Examples.friendly
         (snd (save_servers (Examples.world_of [("alias", Examples.echo)]))))
  = Ok [("Echo", Examples.echo)].
Proof. vm_compute. reflexivity. Qed.

(** ** C4: candidate selection *)

(** An exception that leaves the health prober is one its handler does
    not catch. *)
Lemma check_server_health_raises E s w e w' :
  check_server_health E s w = (Raise e, w') -> uncaught e.
Proof.
  intros Hc.
  destruct (check_server_health_outcome E s w)
    as [(last & v & _ & _ & Hc') | [(b & v & _ & Hc') | (b & e' & _ & He & _ & Hc')]];
    rewrite Hc' in Hc; try discriminate.
  now injection Hc as <- _.
Qed.

Lemma health_aborted_uncaught E l w e w' :
  HealthAborted E l w e w' -> uncaught e.
Proof.
  induction 1 as [s rest w e w1 Hc|]; [|assumption].
  exact (check_server_health_raises _ _ _ _ _ Hc).
Qed.

(** The list comprehension either filters the whole list or is left by the
    exception of a health check. *)
Lemma filter_healthy_spec E l w :
  match filter_healthy E l w with
  | (Ok live, w') => HealthFiltered E l w live w'
  | (Raise e, w') => HealthAborted E l w e w'
  end.
Proof.
  revert w. induction l as [|s rest IH]; intros w; simpl.
  - constructor.
  - run. destruct (check_server_health E s w) as [[v|e] w1] eqn:Hc.
    + specialize (IH w1).
      destruct (filter_healthy E rest w1) as [[live|e] w2] eqn:Hf.
      * destruct v; [eapply HF_keep|eapply HF_drop]; eauto.
      * eapply HA_later; eauto.
    + now apply HA_here.
Qed.

(** C4, as stated, fails: a qualified name whose tool is the consent tool
    and whose server is registered under another name has no candidate
    list; the permission boundary answers 403 first. *)
Lemma C4_consent_tool_on_registered_backend :
  Dict.get "Evil" (servers (Examples.world_of [("Evil", Examples.evil)]))
    = Some Examples.evil /\
  call_tool_resolve Examples.friendly "Evil.ask_for_permission"
      (Examples.world_of [("Evil", Examples.evil)])
    = (Ok (Answered consent_denied), Examples.world_of [("Evil", Examples.evil)]).
Proof. split; reflexivity. Qed.

(** C4, amended. For a qualified name that the permission boundary lets
    through (its tool is not the consent tool, or its server is the
    reserved name): the candidates are exactly the named backend when it is
    registered, chosen without asking the health prober (the world is
    unchanged); the request is answered 404 when it is not.  For an
    unqualified name other than the consent tool the registered backends
    are put to the health prober in table order: when every check returns,
    the candidates are the backends reported healthy, in table order; when
    a check raises (an exception of the probe that is not a transport
    error), no candidate list is made and the exception leaves the
    handler. *)
Theorem C4_candidate_selection (E : Env) (w : World) :
  (forall server_name tool_name data,
      contains_dot server_name = false ->
      (tool_name = "ask_for_permission" -> server_name = PERMISSION_SERVER_NAME) ->
      match Dict.get server_name (servers w) with
      | Some server =>
          call_tool_resolve E (server_name +:+ "." +:+ tool_name) w
            = (Ok (Targets (Some server_name) tool_name [server]), w)
      | None =>
          call_tool E (Some (server_name +:+ "." +:+ tool_name)) data w
            = (Ok (server_not_found server_name), w)
      end)
  /\
  (forall requested,
      contains_dot requested = false ->
      requested <> "ask_for_permission" ->
      match call_tool_resolve E requested w with
      | (Ok resolution, w') =>
          exists live,
            resolution = Targets None requested live /\
            HealthFiltered E (Dict.values (servers w)) w live w'
      | (Raise e, w') =>
          uncaught e /\ HealthAborted E (Dict.values (servers w)) w e w'
      end).
Proof.
  split.
  - intros sn tn data Hdot Hboundary.
    assert (Hgate : String.eqb tn "ask_for_permission"
                    && negb (String.eqb sn PERMISSION_SERVER_NAME) = false).
    { destruct (String.eqb_spec tn "ask_for_permission") as [Htn|]; [|reflexivity].
      rewrite (Hboundary Htn), String.eqb_refl. reflexivity. }
    destruct (Dict.get sn (servers w)) as [server|] eqn:Hget.
    + unfold call_tool_resolve. run.
      rewrite contains_dot_qualified, (split_dot_once_qualified _ _ Hdot), Hgate.
      unfold Dict.contains. rewrite Hget. reflexivity.
    + unfold call_tool, call_tool_resolve. run.
      rewrite contains_dot_qualified, (split_dot_once_qualified _ _ Hdot), Hgate.
      unfold Dict.contains. rewrite Hget. reflexivity.
  - intros requested Hdot Hne.
    pose proof (filter_healthy_spec E (Dict.values (servers w)) w) as Hspec.
    unfold call_tool_resolve. run. rewrite Hdot.
    apply String.eqb_neq in Hne. rewrite Hne.
    destruct (filter_healthy E (Dict.values (servers w)) w) as [[live|e] w'].
    + exists live. split; [reflexivity|exact Hspec].
    + split; [exact (health_aborted_uncaught _ _ _ _ _ Hspec)|exact Hspec].
Qed.

Lemma C4_candidate_selection_witness :
  call_tool_resolve Examples.friendly ("Echo" +:+ "." +:+ "echo")
      (Examples.world_of [("Echo", Examples.echo)])
    = (Ok (Targets (Some "Echo") "echo" [Examples.echo]),
       Examples.world_of [("Echo", Examples.echo)])
  /\
  match call_tool_resolve Examples.friendly "echo"
          (Examples.world_of [("Echo", Examples.echo)]) with
  | (Ok resolution, w') =>
      exists live,
        resolution = Targets None "echo" live /\
        HealthFiltered Examples.friendly
          (Dict.values (servers (Examples.world_of [("Echo", Examples.echo)])))
          (Examples.world_of [("Echo", Examples.echo)]) live w'
  | (Raise e, w') =>
      uncaught e /\
      HealthAborted Examples.friendly
        (Dict.values (servers (Examples.world_of [("Echo", Examples.echo)])))
        (Examples.world_of [("Echo", Examples.echo)]) e w'
  end.
Proof.
  split.
  - apply (proj1 (C4_candidate_selection Examples.friendly
                    (Examples.world_of [("Echo", Examples.echo)]))
             "Echo" "echo" JNull).
    + reflexivity.
    + discriminate.
  - apply (proj2 (C4_candidate_selection Examples.friendly
                    (Examples.world_of [("Echo", Examples.echo)]))
             "echo").
    + reflexivity.
    + discriminate.
Defined.

(** Candidate selection at work: one healthy backend; and a backend whose
    probe raises an exception that is not a transport error. *)
Example candidate_selection_runs :
  fst (call_tool_resolve Examples.friendly "echo"
         (Examples.world_of [("Echo", Examples.echo)]))
    = Ok (Targets None "echo" [Examples.echo]) /\
  fst (call_tool_resolve Examples.unparsable "echo"
         (Examples.world_of [("Echo", Examples.echo)]))
    = Raise (Exn OtherException "LocationParseError").
Proof. split; vm_compute; reflexivity. Qed.

(** ** C5: the invocation loop *)

Section InvocationLoop.

Variable E : Env.
Variables (tool_name : string) (data : json).

Lemma loop_skip s rest w w1 :
  Skipped E tool_name data s w w1 ->
  call_tool_loop E tool_name data (s :: rest) w
  = call_tool_loop E tool_name data rest w1.
Proof.
  intros Hskip. cbn [call_tool_loop]. unfold client_list_tools, client_call_tool. run.
  destruct Hskip as [msg Hl|tools Hl Hno|tools msg Hl Hhas Hc]; rewrite Hl; simpl.
  - reflexivity.
  - rewrite Hno. reflexivity.
  - rewrite Hhas. simpl. rewrite Hc. reflexivity.
Qed.

Lemma loop_win s rest w result w1 :
  Won E tool_name data s w result w1 ->
  call_tool_loop E tool_name data (s :: rest) w = (Ok (Some result), w1).
Proof.
  intros [tools Hl Hhas Hc]. cbn [call_tool_loop].
  unfold client_list_tools, client_call_tool. run.
  rewrite Hl. simpl. rewrite Hhas. simpl. rewrite Hc. reflexivity.
Qed.

Lemma loop_first_winner pre s post w w1 result w2 :
  AllSkipped E tool_name data pre w w1 -> Won E tool_name data s w1 result w2 ->
  call_tool_loop E tool_name data (pre ++ s :: post)%list w = (Ok (Some result), w2).
Proof.
  intros Hpre Hwin. induction Hpre as [w|s0 rest w wa wb Hs _ IH]; simpl app.
  - now apply loop_win.
  - rewrite (loop_skip _ _ _ _ Hs). now apply IH.
Qed.

Lemma loop_exhausted l w w1 :
  AllSkipped E tool_name data l w w1 -> call_tool_loop E tool_name data l w = (Ok None, w1).
Proof.
  intros Hall. induction Hall as [w|s0 rest w wa wb Hs _ IH].
  - reflexivity.
  - now rewrite (loop_skip _ _ _ _ Hs).
Qed.

Lemma skipped_state s w w1 : Skipped E tool_name data s w w1 -> state_unchanged w w1.
Proof. intros []; repeat split. Qed.

Lemma all_skipped_state l w w1 : AllSkipped E tool_name data l w w1 -> state_unchanged w w1.
Proof.
  intros Hall. induction Hall as [w|s0 rest w wa wb Hs _ IH].
  - repeat split.
  - destruct (skipped_state _ _ _ Hs) as (H1 & H2 & H3).
    destruct IH as (H1' & H2' & H3').
    unfold state_unchanged. rewrite H1', H2', H3'. auto.
Qed.

End InvocationLoop.

Lemma append_empty (s : string) : s +:+ EmptyString = s.
Proof.
  induction s as [|c s IH]; [reflexivity|].
  change (String c (s +:+ EmptyString) = String c s). now rewrite IH.
Qed.

(** C5, as stated, fails on the message: a request qualified with the
    empty server name (a backend can register under it) gets the message
    without the server name, because the test is Python truthiness. *)
Lemma C5_empty_server_name_omitted :
  contains_dot ".t" = true /\
  split_dot_once ".t" = [EmptyString; "t"] /\
  call_tool Examples.hostile (Some ".t") JNull
      (Examples.world_of [(EmptyString, Examples.nameless)])
    = (Ok (mkResponse 404 (error_body "Tool 't' not found")),
       log (EvListTools "http://127.0.0.1:5010")
           (Examples.world_of [(EmptyString, Examples.nameless)])).
Proof. repeat split; vm_compute; reflexivity. Qed.

(** C5, amended. Once the candidates are chosen, the call returns, with
    status 200, the result of the first candidate that has the tool and
    whose call completes, all candidates before it having been passed over
    (catalog fetch failed with a transport error, tool absent from the
    catalog, or call failed with a transport error).  When every candidate
    is passed over the answer is 404, and the message names the qualifying
    server exactly when a non-empty one was given.  Passing candidates over
    records nothing: table, health cache and snapshot file are unchanged. *)
Theorem C5_invocation_loop
    (E : Env) (requested : string) (data : json) (w w0 : World)
    (server_name : option string) (tool_name : string) (targets : list Server) :
  call_tool_resolve E requested w = (Ok (Targets server_name tool_name targets), w0) ->
  (forall pre s post w1 result w2,
      targets = (pre ++ s :: post)%list ->
      AllSkipped E tool_name data pre w0 w1 ->
      Won E tool_name data s w1 result w2 ->
      call_tool E (Some requested) data w = (Ok (mkResponse 200 (JArr result)), w2) /\
      state_unchanged w0 w2)
  /\
  (forall w1,
      AllSkipped E tool_name data targets w0 w1 ->
      call_tool E (Some requested) data w
        = (Ok (mkResponse 404
                 (error_body
                    (("Tool '" +:+ tool_name +:+ "' not found") +:+
                     match server_name with
                     | Some n => if String.eqb n EmptyString then EmptyString
                                 else " on server '" +:+ n +:+ "'"
                     | None => EmptyString
                     end))), w1) /\
      state_unchanged w0 w1).
Proof.
  intros Hres. split.
  - intros pre s post w1 result w2 -> Hpre Hwin. split.
    + unfold call_tool. unfold bind at 1. rewrite Hres. unfold bind.
      rewrite (loop_first_winner E tool_name data pre s post w0 w1 result w2 Hpre Hwin).
      reflexivity.
    + destruct (all_skipped_state _ _ _ _ _ _ Hpre) as (H1 & H2 & H3).
      destruct Hwin. unfold state_unchanged. simpl. auto.
  - intros w1 Hall. split; [|eapply all_skipped_state; eauto].
    unfold call_tool. unfold bind at 1. rewrite Hres. unfold bind.
    rewrite (loop_exhausted E tool_name data targets w0 w1 Hall).
    unfold ret, not_found_message, truthy. do 4 f_equal.
    destruct server_name as [n|]; simpl.
    + destruct (String.eqb n EmptyString); simpl; [|reflexivity].
      now rewrite append_empty.
    + now rewrite append_empty.
Qed.

Lemma C5_invocation_loop_witness :
  (call_tool Examples.picky (Some "echo") JNull Examples.two_backends
     = (Ok (mkResponse 200 (JArr [JStr "Echo: Hi"])),
        snd (call_tool Examples.picky (Some "echo") JNull Examples.two_backends)) /\
   state_unchanged
     (snd (call_tool_resolve Examples.picky "echo" Examples.two_backends))
     (snd (call_tool Examples.picky (Some "echo") JNull Examples.two_backends)))
  /\
  (call_tool Examples.hostile (Some "Echo.echo") JNull Examples.two_backends
     = (Ok (mkResponse 404 (error_body "Tool 'echo' not found on server 'Echo'")),
        log (EvListTools (base_url Examples.echo)) Examples.two_backends) /\
   state_unchanged Examples.two_backends
     (log (EvListTools (base_url Examples.echo)) Examples.two_backends)).
Proof.
  split.
  - apply (proj1 (C5_invocation_loop Examples.picky "echo" JNull
                    Examples.two_backends
                    (snd (call_tool_resolve Examples.picky "echo" Examples.two_backends))
                    None "echo" [Examples.evil; Examples.echo]
                    ltac:(vm_compute; reflexivity))
             [Examples.evil] Examples.echo []
             (log (EvListTools (base_url Examples.evil))
                (snd (call_tool_resolve Examples.picky "echo" Examples.two_backends)))
             [JStr "Echo: Hi"]).
    + reflexivity.
    + econstructor; [|constructor].
      apply (Skip_listing_failed _ _ _ _ _ "connection refused"). reflexivity.
    + apply (Won_call _ _ _ _ _ _ [mkTool "echo" "Echo the input text" JNull]);
        reflexivity.
  - apply (proj2 (C5_invocation_loop Examples.hostile "Echo.echo" JNull
                    Examples.two_backends Examples.two_backends
                    (Some "Echo") "echo" [Examples.echo]
                    ltac:(vm_compute; reflexivity))).
    econstructor; [|constructor].
    apply (Skip_listing_failed _ _ _ _ _ "connection refused"). reflexivity.
Defined.

(** ** C6: which backends the tool listing calls *)

Lemma check_server_health_listing E s w r w' :
  check_server_health E s w = (r, w') ->
  listing_calls (trace w') = listing_calls (trace w).
Proof.
  intros Hc.
  destruct (check_server_health_outcome E s w)
    as [(last & v & _ & _ & Hc') | [(b & v & Hb & Hc') | (b & e & Hb & _ & _ & Hc')]];
    revert Hc; rewrite Hc'; intros [= <- <-];
    [reflexivity | destruct Hb as [-> | ->]; reflexivity ..].
Qed.

Lemma exn_is_request e :
  exn_class_eqb (exn_cls e) RequestException = true ->
  exists msg, e = Exn RequestException msg.
Proof. destruct e as [[] msg]; simpl; try discriminate. eauto. Qed.

Lemma get_tools_loop_gated E l acc w tools w' :
  get_tools_loop E l acc w = (Ok tools, w') ->
  exists called,
    Gated E l w called w' /\
    listing_calls (trace w')
    = (rev (map base_url called) ++ listing_calls (trace w))%list.
Proof.
  revert acc w. induction l as [|s rest IH]; intros acc w.
  - simpl. run. intros [= <- <-]. exists []. split; [constructor|reflexivity].
  - cbn [get_tools_loop]. unfold client_list_tools. run.
    destruct (check_server_health E s w) as [[v|e] w1] eqn:Hc;
      [|rewrite (check_server_health_raises _ _ _ _ _ Hc); discriminate].
    pose proof (check_server_health_listing _ _ _ _ _ Hc) as Hl1.
    destruct v; simpl.
    + destruct (rpc_list_tools E (trace w1) (base_url s)) as [ts|e] eqn:Hrpc; simpl.
      * intros Hloop. destruct (IH _ _ Hloop) as (called & Hg & Hl).
        exists (s :: called). split.
        -- eapply Gated_call; eauto. eapply Listed_answered; eauto.
        -- rewrite Hl. simpl. rewrite <- app_assoc, Hl1. reflexivity.
      * destruct (exn_class_eqb (exn_cls e) RequestException) eqn:He; simpl;
          [|discriminate].
        destruct (exn_is_request e He) as (msg & ->).
        intros Hloop. destruct (IH _ _ Hloop) as (called & Hg & Hl).
        exists (s :: called). split.
        -- eapply Gated_call; eauto. eapply Listed_failed; eauto.
        -- rewrite Hl. simpl. rewrite <- app_assoc, Hl1. reflexivity.
    + intros Hloop. destruct (IH _ _ Hloop) as (called & Hg & Hl).
      exists called. split.
      * eapply Gated_skip; eauto.
      * rewrite Hl, Hl1. reflexivity.
Qed.

Lemma legacy_loop_calls_all E l acc w tools w' :
  Legacy.get_tools_loop E l acc w = (Ok tools, w') ->
  listing_calls (trace w')
  = (rev (map base_url l) ++ listing_calls (trace w))%list.
Proof.
  revert acc w. induction l as [|s rest IH]; intros acc w.
  - simpl. run. intros [= <- <-]. reflexivity.
  - cbn [Legacy.get_tools_loop]. unfold client_list_tools. run.
    destruct (rpc_list_tools E (trace w) (base_url s)) as [ts|e]; simpl.
    + intros Hloop. rewrite (IH _ _ Hloop). simpl. now rewrite <- app_assoc.
    + destruct (exn_class_eqb (exn_cls e) RequestException); simpl; [|discriminate].
      intros Hloop. rewrite (IH _ _ Hloop). simpl. now rewrite <- app_assoc.
Qed.

Lemma tools_errors_ok (m : M Response) server_name w r w' :
  tools_errors server_name m w = (Ok r, w') ->
  status r = 200 ->
  (forall r0 w0, m w = (Ok r0, w0) -> status r0 = 200) ->
  m w = (Ok r, w').
Proof.
  unfold tools_errors. destruct (m w) as [[r0|e] w0].
  - intros [= <- <-]. reflexivity.
  - destruct (exn_class_eqb (exn_cls e) KeyError); intros [= <- <-]; discriminate.
Qed.

(** C6, as stated, fails: a registered backend with a fresh unhealthy
    record gets no call at all from the tool listing. *)
Lemma C6_unhealthy_backend_not_called :
  In Examples.echo
     (Dict.values (servers (mkWorld [("Echo", Examples.echo)]
                                    {[ "Echo" := (0, false) ]} None []))) /\
  get_tools Examples.friendly None
      (mkWorld [("Echo", Examples.echo)] {[ "Echo" := (0, false) ]} None [])
    = (Ok (mkResponse 200 (JArr [])),
       mkWorld [("Echo", Examples.echo)] {[ "Echo" := (0, false) ]} None [EvNow]).
Proof. split; [now left|]. vm_compute. reflexivity. Qed.

(** C6, amended. A tool listing with no scope that is answered 200 asked
    the health prober about every registered backend in table order and
    made a tool-listing call to exactly those reported healthy at their
    turn; a backend reported unhealthy got none.  The listing of the
    earlier [server.py] has no such gate: answered 200, it made a
    tool-listing call to every registered backend. *)
Theorem C6_tool_listing_targets (E : Env) (w : World) :
  (forall r w',
      get_tools E None w = (Ok r, w') -> status r = 200 ->
      exists called,
        Gated E (Dict.values (servers w)) w called w' /\
        listing_calls (trace w')
        = (rev (map base_url called) ++ listing_calls (trace w))%list)
  /\
  (forall r w',
      Legacy.get_tools E None w = (Ok r, w') -> status r = 200 ->
      listing_calls (trace w')
      = (rev (map base_url (Dict.values (servers w))) ++ listing_calls (trace w))%list).
Proof.
  split; intros r w' Hget H200.
  - apply tools_errors_ok in Hget; auto.
    + revert Hget. unfold tools_targets. run.
      destruct (get_tools_loop E (Dict.values (servers w)) [] w) as [[ts|e] w1] eqn:Hloop;
        [|discriminate].
      intros [= <- <-]. eapply get_tools_loop_gated; eauto.
    + intros r0 w0. unfold tools_targets. run.
      destruct (get_tools_loop E _ [] w) as [[ts|e] w1]; [|discriminate].
      intros [= <- <-]. reflexivity.
  - apply tools_errors_ok in Hget; auto.
    + revert Hget. unfold tools_targets. run.
      destruct (Legacy.get_tools_loop E (Dict.values (servers w)) [] w)
        as [[ts|e] w1] eqn:Hloop; [|discriminate].
      intros [= <- <-]. eapply legacy_loop_calls_all; eauto.
    + intros r0 w0. unfold tools_targets. run.
      destruct (Legacy.get_tools_loop E _ [] w) as [[ts|e] w1]; [|discriminate].
      intros [= <- <-]. reflexivity.
Qed.

Lemma C6_tool_listing_targets_witness :
  (exists called,
     Gated Examples.picky (Dict.values (servers Examples.two_backends))
           Examples.two_backends called
           (snd (get_tools Examples.picky None Examples.two_backends)) /\
     listing_calls (trace (snd (get_tools Examples.picky None Examples.two_backends)))
     = (rev (map base_url called) ++ listing_calls (trace Examples.two_backends))%list)
  /\
  listing_calls (trace (snd (Legacy.get_tools Examples.picky None Examples.two_backends)))
  = (rev (map base_url (Dict.values (servers Examples.two_backends)))
       ++ listing_calls (trace Examples.two_backends))%list.
Proof.
  split.
  - apply (proj1 (C6_tool_listing_targets Examples.picky Examples.two_backends)
             (mkResponse 200
                (JArr [model_dump (qualify Examples.echo
                          (mkTool "echo" "Echo the input text" JNull))]))).
    + vm_compute. reflexivity.
    + reflexivity.
  - apply (proj2 (C6_tool_listing_targets Examples.picky Examples.two_backends)
             (mkResponse 200
                (JArr [model_dump (qualify Examples.echo
                          (mkTool "echo" "Echo the input text" JNull))]))).
    + vm_compute. reflexivity.
    + reflexivity.
Defined.

(** ** The table the service builds

    Every table the service can reach has unique keys and files each
    server under its own name: the empty table does, and registration,
    loading and startup keep it so. *)

Lemma keyed_set (s : Server) (table : dict Server) :
  keyed_by_name table -> keyed_by_name (Dict.set (name s) s table).
Proof.
  unfold keyed_by_name. induction table as [|[k v] table IH]; simpl; intros Hk.
  - repeat constructor.
  - apply Forall_cons in Hk. destruct Hk as [Hkv Hk].
    destruct (String.eqb (name s) k) eqn:Heq.
    + apply String.eqb_eq in Heq. constructor; [simpl; congruence|exact Hk].
    + constructor; [exact Hkv|now apply IH].
Qed.

Lemma table_ok_set (s : Server) (table : dict Server) :
  table_ok table -> table_ok (Dict.set (name s) s table).
Proof.
  intros [Hwf Hk]. split; [now apply DictFacts.wf_set|now apply keyed_set].
Qed.

Lemma table_ok_empty : table_ok [].
Proof. split; [apply NoDup_nil_2|constructor]. Qed.

Lemma register_server_table_ok E data w r w' :
  table_ok (servers w) ->
  register_server E data w = (r, w') ->
  table_ok (servers w').
Proof.
  intros Hok. unfold register_server.
  destruct data as [[u|] [n|] [d|]]; run; simpl;
    try (intros [= <- <-]; exact Hok).
  destruct (String.eqb n PERMISSION_SERVER_NAME); [intros [= <- <-]; exact Hok|].
  destruct (_generate_port E u 5000 65535 w) as [[p|e] w1] eqn:Hgen.
  - destruct (generate_port_state _ _ _ _ _ _ _ Hgen) as (Hs & _).
    intros [= <- <-]. simpl. rewrite Hs.
    apply (table_ok_set (mkServer n d u p)). exact Hok.
  - destruct (generate_port_state _ _ _ _ _ _ _ Hgen) as (Hs & _).
    intros [= <- <-]. now rewrite Hs.
Qed.

Lemma load_entries_table_ok E entries loaded w r w' :
  table_ok loaded ->
  load_entries E entries loaded w = (Ok r, w') ->
  table_ok r.
Proof.
  revert loaded w. induction entries as [|j rest IH]; intros loaded w Hok; simpl.
  - run. now intros [= <- <-].
  - destruct (Server_from j) as [s|]; [|run; now intros [= <- <-]].
    run. destruct (check_server_health E s w) as [[[|]|e] w1]; cbn [fst snd].
    + apply IH. now apply table_ok_set.
    + now apply IH.
    + now intros [= <- <-].
Qed.

Lemma load_servers_table_ok E w r w' :
  load_servers E w = (Ok r, w') -> table_ok r.
Proof.
  unfold load_servers. run.
  destruct (STORAGE_FILE w) as [[|[]]|];
    try (intros [= <- <-]; apply table_ok_empty).
  apply load_entries_table_ok, table_ok_empty.
Qed.

Lemma adopt_loaded_table_ok (loaded table : dict Server) :
  keyed_by_name loaded -> table_ok table -> table_ok (adopt_loaded loaded table).
Proof.
  revert table. induction loaded as [|[k s] loaded IH]; intros table Hk Hok; simpl.
  - exact Hok.
  - apply Forall_cons in Hk. destruct Hk as [Hks Hk]. simpl in Hks. subst k.
    destruct (negb (String.eqb (name s) PERMISSION_SERVER_NAME)).
    + apply IH; [exact Hk|now apply table_ok_set].
    + now apply IH.
Qed.

Lemma adopt_loaded_keeps_privileged (loaded table : dict Server) :
  Dict.get PERMISSION_SERVER_NAME (adopt_loaded loaded table)
  = Dict.get PERMISSION_SERVER_NAME table.
Proof.
  revert table. induction loaded as [|[k s] loaded IH]; intros table; simpl.
  - reflexivity.
  - destruct (String.eqb k PERMISSION_SERVER_NAME) eqn:Hk; simpl.
    + apply IH.
    + rewrite IH. apply DictFacts.get_set_ne.
      apply String.eqb_neq in Hk. exact Hk.
Qed.

Lemma load_entries_servers E entries loaded w r w' :
  load_entries E entries loaded w = (r, w') -> servers w' = servers w.
Proof.
  revert loaded w. induction entries as [|j rest IH]; intros loaded w; simpl.
  - run. now intros [= <- <-].
  - destruct (Server_from j) as [s|]; [|run; now intros [= <- <-]].
    run. destruct (check_server_health E s w) as [[v|e] w1] eqn:Hc; cbn [fst snd].
    + destruct (check_server_health_servers _ _ _ _ _ Hc) as [Hs _].
      destruct v; intros H; apply IH in H; congruence.
    + destruct (check_server_health_servers _ _ _ _ _ Hc) as [Hs _].
      now intros [= <- <-].
Qed.

Lemma load_servers_servers E w r w' :
  load_servers E w = (r, w') -> servers w' = servers w.
Proof.
  unfold load_servers. run.
  destruct (STORAGE_FILE w) as [[|[]]|]; try (now intros [= <- <-]).
  apply load_entries_servers.
Qed.

(** Startup: the table stays well formed, and the privileged entry put
    there by [load_permission_server] is not overwritten by a snapshot
    record filed under the reserved name. *)
Lemma run_table_ok E permission_description w w' :
  table_ok (servers w) ->
  run E permission_description w = (Ok tt, w') ->
  table_ok (servers w') /\
  exists p,
    Dict.get PERMISSION_SERVER_NAME (servers w')
    = Some (mkServer PERMISSION_SERVER_NAME permission_description
                     "http://127.0.0.1" p).
Proof.
  intros Hok. unfold run, load_permission_server. run.
  destruct (_generate_port E "http://127.0.0.1" 5000 65535 w) as [[p|e] w1] eqn:Hgen;
    [|discriminate].
  destruct (generate_port_state _ _ _ _ _ _ _ Hgen) as (Hs & _).
  set (perm := mkServer PERMISSION_SERVER_NAME permission_description
                        "http://127.0.0.1" p).
  set (w2 := mkWorld _ _ _ _).
  destruct (load_servers E w2) as [[loaded|e] w3] eqn:Hload; [|discriminate].
  pose proof (load_servers_table_ok _ _ _ _ Hload) as [_ Hkl].
  pose proof (load_servers_servers _ _ _ _ Hload) as Hs3.
  simpl. intros [= <-]. simpl. rewrite Hs3. subst w2. simpl. rewrite Hs. split.
  - apply adopt_loaded_table_ok; [exact Hkl|].
    apply (table_ok_set perm). exact Hok.
  - exists p. rewrite adopt_loaded_keeps_privileged. apply DictFacts.get_set_eq.
Qed.

(** * Further properties of the code *)

(** ** The health prober: re-checks and what a check may touch *)

(** X1. Whatever a health check returned, its verdict is then on record
    for the backend; a second check made while that record is younger than
    30 seconds returns the same verdict and only reads the clock. *)
Theorem X1_recheck_within_ttl (E : Env) (s : Server) (w w1 : World) (v : bool) :
  check_server_health E s w = (Ok v, w1) ->
  exists t,
    health_cache w1 !! name s = Some (t, v) /\
    (clock E (trace w1) - t < TTL ->
     check_server_health E s w1 = (Ok v, log EvNow w1)).
Proof.
  intros Hc.
  destruct (check_server_health_outcome E s w)
    as [(last & v0 & Hrec & _ & H)
       |[(before & verdict & _ & H)|(before & e & _ & _ & _ & H)]];
    rewrite H in Hc; [| |discriminate]; injection Hc as <- <-.
  - exists last. split; [exact Hrec|].
    intros Hfresh.
    apply (check_server_health_cached E s _ last v0); [exact Hrec|exact Hfresh].
  - eexists. split; [apply lookup_insert_eq|].
    intros Hfresh. eapply check_server_health_cached; [apply lookup_insert_eq|exact Hfresh].
Qed.

Lemma X1_recheck_within_ttl_witness :
  exists t,
    health_cache (snd (check_server_health Examples.friendly Examples.echo
                         Examples.empty_world)) !! name Examples.echo
      = Some (t, true) /\
    (clock Examples.friendly
       (trace (snd (check_server_health Examples.friendly Examples.echo
                      Examples.empty_world))) - t < TTL ->
     check_server_health Examples.friendly Examples.echo
       (snd (check_server_health Examples.friendly Examples.echo Examples.empty_world))
     = (Ok true,
        log EvNow (snd (check_server_health Examples.friendly Examples.echo
                          Examples.empty_world)))).
Proof.
  apply (X1_recheck_within_ttl Examples.friendly Examples.echo Examples.empty_world).
  vm_compute. reflexivity.
Defined.

(** X2. A health check of a backend leaves the table and the snapshot file
    alone, changes no health record but the one filed under the backend's
    name, and its only interactions are readings of the clock and the [GET]
    of that backend's health URL with timeout 5. *)
Theorem X2_health_check_frame (E : Env) (s : Server) (w : World) :
  servers (snd (check_server_health E s w)) = servers w /\
  STORAGE_FILE (snd (check_server_health E s w)) = STORAGE_FILE w /\
  delete (name s) (health_cache (snd (check_server_health E s w)))
    = delete (name s) (health_cache w) /\
  exists evs,
    trace (snd (check_server_health E s w)) = (evs ++ trace w)%list /\
    Forall (fun e => e = EvNow \/ e = EvHttpGet (health_url s) 5) evs.
Proof.
  destruct (check_server_health_outcome E s w)
    as [(last & v0 & _ & _ & H)
       |[(before & verdict & Hb & H)|(before & e & Hb & _ & _ & H)]];
    rewrite H; simpl.
  - repeat split. exists [EvNow]. split; [reflexivity|]. forall_list. now left.
  - repeat split.
    + apply delete_insert_eq.
    + destruct Hb as [-> | ->].
      * exists [EvNow; EvHttpGet (health_url s) 5]. split; [reflexivity|].
        forall_list; auto.
      * exists [EvNow; EvHttpGet (health_url s) 5; EvNow]. split; [reflexivity|].
        forall_list; auto.
  - repeat split.
    destruct Hb as [-> | ->].
    + exists [EvHttpGet (health_url s) 5]. split; [reflexivity|].
      forall_list; auto.
    + exists [EvHttpGet (health_url s) 5; EvNow]. split; [reflexivity|].
      forall_list; auto.
Qed.

(** ** The live-servers listing *)

Lemma health_filtered_frame E l w live w' :
  HealthFiltered E l w live w' ->
  sublist live l /\ servers w' = servers w /\ STORAGE_FILE w' = STORAGE_FILE w.
Proof.
  induction 1 as [w|s rest w w1 live w2 Hc _ (Hsub & Hs & Hf)
                    |s rest w w1 live w2 Hc _ (Hsub & Hs & Hf)].
  - repeat split. constructor.
  - destruct (check_server_health_servers _ _ _ _ _ Hc) as [Hs1 Hf1].
    split; [now constructor|]. split; congruence.
  - destruct (check_server_health_servers _ _ _ _ _ Hc) as [Hs1 Hf1].
    split; [now constructor|]. split; congruence.
Qed.

Lemma health_aborted_frame E l w e w' :
  HealthAborted E l w e w' ->
  servers w' = servers w /\ STORAGE_FILE w' = STORAGE_FILE w.
Proof.
  induction 1 as [s rest w e w1 Hc|s rest w v w1 e w2 Hc _ (Hs & Hf)];
    destruct (check_server_health_servers _ _ _ _ _ Hc) as [Hs1 Hf1].
  - split; assumption.
  - split; congruence.
Qed.

(** X3. [GET /servers] puts the registered backends to the health prober
    one after the other in table order.  When every check returns, it
    answers 200 with the records of the backends reported healthy, a
    sub-sequence of the table.  When a check raises (an exception of the
    probe that is not a transport error), the backends after it are not
    checked and the exception leaves the handler.  Either way the table
    and the snapshot file are left as they were. *)
Theorem X3_get_servers_lists_live (E : Env) (w : World) :
  match get_servers E w with
  | (Ok response, w') =>
      exists live,
        response = mkResponse 200 (JArr (map server_info live)) /\
        HealthFiltered E (Dict.values (servers w)) w live w' /\
        sublist live (Dict.values (servers w)) /\
        servers w' = servers w /\
        STORAGE_FILE w' = STORAGE_FILE w
  | (Raise e, w') =>
      uncaught e /\
      HealthAborted E (Dict.values (servers w)) w e w' /\
      servers w' = servers w /\
      STORAGE_FILE w' = STORAGE_FILE w
  end.
Proof.
  pose proof (filter_healthy_spec E (Dict.values (servers w)) w) as Hspec.
  unfold get_servers. run.
  destruct (filter_healthy E (Dict.values (servers w)) w) as [[live|e] w'].
  - exists live.
    destruct (health_filtered_frame _ _ _ _ _ Hspec) as (Hsub & Hs & Hfile).
    repeat split; auto.
  - destruct (health_aborted_frame _ _ _ _ _ Hspec) as (Hs & Hfile).
    repeat split; auto.
    exact (health_aborted_uncaught _ _ _ _ _ Hspec).
Qed.

(** [GET /servers] at work: a healthy backend is listed, an unreachable one
    is left out, and an exception of the probe that is not a transport
    error leaves the handler. *)
Example get_servers_runs :
  fst (get_servers Examples.friendly (Examples.world_of [("Echo", Examples.echo)]))
    = Ok (mkResponse 200 (JArr [server_info Examples.echo])) /\
  fst (get_servers Examples.hostile (Examples.world_of [("Echo", Examples.echo)]))
    = Ok (mkResponse 200 (JArr [])) /\
  fst (get_servers Examples.unparsable (Examples.world_of [("Echo", Examples.echo)]))
    = Raise (Exn OtherException "LocationParseError").
Proof. repeat split; vm_compute; reflexivity. Qed.

(** ** Loading the snapshot *)






(** A record is made of a document of its shape only. *)
Lemma Server_from_shaped (j : json) (s : Server) :
  Server_from j = Some s -> record_shaped j = true.
Proof.
  unfold Server_from, record_shaped, Dict.contains.
  destruct j as [| | | | |members]; try discriminate.
  destruct (length (Dict.of_pairs members) =? 4)%nat; [|discriminate].
  destruct (Dict.get "name" (Dict.of_pairs members)); [|discriminate].
  destruct (Dict.get "description" (Dict.of_pairs members));
    [|destruct j; discriminate].
  destruct (Dict.get "url" (Dict.of_pairs members));
    [|destruct j; try discriminate; destruct j0; discriminate].
  destruct (Dict.get "port" (Dict.of_pairs members)); [reflexivity|].
  destruct j; try discriminate; destruct j0; try discriminate;
    destruct j1; discriminate.
Qed.

Lemma load_entries_stops E entries bad rest loaded w :
  Server_from bad = None ->
  load_entries E (entries ++ bad :: rest)%list loaded w
  = load_entries E entries loaded w.
Proof.
  intros Hbad. revert loaded w. induction entries as [|j entries IH]; intros loaded w.
  - simpl. now rewrite Hbad.
  - simpl. destruct (Server_from j) as [s|]; [|reflexivity].
    run. destruct (check_server_health E s w) as [[[|]|e] w1]; cbn [fst snd]; auto.
Qed.

(** X5. A member of the snapshot that has not the shape of a server record
    (it is no object, or its members are not exactly the four fields) ends
    the loading: the members before it, their record-shaped ones having
    fields of the declared types, are loaded as usual; the members after it
    are never looked at (and their backends never probed). *)
Theorem X5_load_stops_at_malformed_member
    (E : Env) (w : World) (members good rest : list (string * json))
    (key : string) (bad : json) :
  STORAGE_FILE w = Some (JsonDoc (JObj members)) ->
  Dict.of_pairs members = (good ++ (key, bad) :: rest)%list ->
  Forall (fun member => typed_as_declared (snd member) = true) good ->
  record_shaped bad = false ->
  load_servers E w = load_entries E (Dict.values good) [] w.
Proof.
  intros Hfile Hmembers _ Hbad. unfold load_servers. run. rewrite Hfile, Hmembers.
  unfold Dict.values. rewrite map_app. simpl.
  apply load_entries_stops.
  destruct (Server_from bad) as [s|] eqn:Hs; [|reflexivity].
  apply Server_from_shaped in Hs. congruence.
Qed.

Lemma X5_load_stops_at_malformed_member_witness :
  load_servers Examples.friendly
    (mkWorld [] empty
       (Some (JsonDoc (JObj [("Echo", vars Examples.echo); ("broken", JNull);
                             ("Evil", vars Examples.evil)]))) [])
  = load_entries Examples.friendly (Dict.values [("Echo", vars Examples.echo)]) []
      (mkWorld [] empty
         (Some (JsonDoc (JObj [("Echo", vars Examples.echo); ("broken", JNull);
                               ("Evil", vars Examples.evil)]))) []).
Proof.
  apply (X5_load_stops_at_malformed_member Examples.friendly _
           [("Echo", vars Examples.echo); ("broken", JNull);
            ("Evil", vars Examples.evil)]
           [("Echo", vars Examples.echo)] [("Evil", vars Examples.evil)]
           "broken" JNull); try reflexivity.
  forall_list. reflexivity.
Defined.

(** The same snapshot, loaded: only the member before the broken one. *)
Example load_stops_at_broken_member :
  fst (load_servers Examples.friendly
         (mkWorld [] empty
            (Some (JsonDoc (JObj [("Echo", vars Examples.echo); ("broken", JNull);
                                  ("Evil", vars Examples.evil)]))) []))
  = Ok [("Echo", Examples.echo)].
Proof. vm_compute. reflexivity. Qed.

(** ** Registration: outcomes, what it changes and what it keeps *)

Lemma generate_port_default E u w :
  match _generate_port E u 5000 65535 w with
  | (Ok p, w1) =>
      5000 <= p <= 65535 /\
      (exists tr, trace w1 = EvBind (host_of E u) p true :: tr) /\
      state_unchanged w w1
  | (Raise e, w1) =>
      e = Exn RuntimeError no_port_message /\ state_unchanged w w1
  end.
Proof.
  unfold _generate_port, random_randint. run.
  change (65535 <? 5000) with false. cbv iota.
  set (r := 5000 + entropy E (trace w) `mod` (65535 - 5000 + 1)).
  assert (Hr : 5000 <= r <= 65535).
  { pose proof (Z.mod_pos_bound (entropy E (trace w)) (65535 - 5000 + 1)).
    unfold r. lia. }
  pose proof (scan_ports_spec E (host_of E u) (Z.to_nat (65535 - r + 1)) r
                (log (EvRandint 5000 65535 r) w)) as Hscan.
  destruct (scan_ports E _ _ r _) as [[p|e] w1].
  - destruct Hscan as (Hp & Htr & Hs); [lia|lia|].
    split; [lia|]. split; [eauto|exact Hs].
  - destruct Hscan as (He & _ & Hs); [lia|lia|]. split; [exact He|exact Hs].
Qed.

(** The four ways a registration ends. *)
Lemma register_server_outcome E data w :
  (missing_field data = true /\
   register_server E data w
     = (Ok (mkResponse 400 (error_body "Missing required fields")), w))
  \/
  (exists u d,
      data = mkRegisterRequest (Some u) (Some PERMISSION_SERVER_NAME) (Some d) /\
      register_server E data w
        = (Ok (mkResponse 403 (error_body "Reserved server name")), w))
  \/
  (exists u n d p w1,
      data = mkRegisterRequest (Some u) (Some n) (Some d) /\
      n <> PERMISSION_SERVER_NAME /\
      _generate_port E u 5000 65535 w = (Ok p, w1) /\
      register_server E data w
        = (Ok (mkResponse 201
                 (JObj [("message", JStr "Server registered successfully");
                        ("server", server_info (mkServer n d u p))])),
           mkWorld (Dict.set n (mkServer n d u p) (servers w1))
                   (health_cache w1)
                   (Some (JsonDoc (snapshot_of
                                     (Dict.set n (mkServer n d u p) (servers w1)))))
                   (trace w1)))
  \/
  (exists u n d e w1,
      data = mkRegisterRequest (Some u) (Some n) (Some d) /\
      n <> PERMISSION_SERVER_NAME /\
      _generate_port E u 5000 65535 w = (Raise e, w1) /\
      register_server E data w = (Raise e, w1)).
Proof.
  unfold register_server, missing_field.
  destruct data as [[u|] [n|] [d|]]; simpl; try (left; split; reflexivity).
  right. destruct (String.eqb_spec n PERMISSION_SERVER_NAME) as [->|Hn].
  - left. exists u, d. split; reflexivity.
  - right. run.
    destruct (_generate_port E u 5000 65535 w) as [[p|e] w1] eqn:Hgen.
    + left. exists u, n, d, p, w1. repeat split; auto.
    + right. exists u, n, d, e, w1. repeat split; auto.
Qed.

(** X6. A registration request that is answered leaves the snapshot file
    in step with the table: after a 201 the file holds the document of the
    new table; a 400 or a 403 touches neither, so the file is in step if it
    was so before.  (A registration that raises is not covered: the table
    is assigned before the file is written.) *)
Theorem X6_registration_keeps_snapshot_in_sync
    (E : Env) (data : RegisterRequest) (w w' : World) (resp : Response) :
  register_server E data w = (Ok resp, w') ->
  (registered resp -> in_sync w') /\
  (in_sync w -> in_sync w').
Proof.
  intros Hreg. unfold in_sync, registered.
  destruct (register_server_outcome E data w)
    as [(_ & H)|[(u & d & _ & H)|[(u & n & d & p & w1 & _ & _ & _ & H)
                                 |(u & n & d & e & w1 & _ & _ & Hgen & H)]]];
    rewrite H in Hreg; try discriminate; injection Hreg as <- <-; simpl;
    split; auto; discriminate.
Qed.

Lemma X6_registration_keeps_snapshot_in_sync_witness :
  (registered
     (mkResponse 201
        (JObj [("message", JStr "Server registered successfully");
               ("server", server_info
                  (mkServer "Echo" "second" "http://10.0.0.2" 5010))])) ->
   in_sync Examples.after_second) /\
  (in_sync Examples.after_first -> in_sync Examples.after_second).
Proof.
  apply (X6_registration_keeps_snapshot_in_sync Examples.friendly
           Examples.second_echo Examples.after_first Examples.after_second).
  vm_compute. reflexivity.
Defined.

(** X7. No registration request, whatever its fields and however it ends,
    changes the entry filed under the reserved name. *)
Theorem X7_registration_never_touches_privileged
    (E : Env) (data : RegisterRequest) (w : World) :
  Dict.get PERMISSION_SERVER_NAME (servers (snd (register_server E data w)))
  = Dict.get PERMISSION_SERVER_NAME (servers w).
Proof.
  destruct (register_server_outcome E data w)
    as [(_ & H)|[(u & d & _ & H)|[(u & n & d & p & w1 & _ & Hn & Hgen & H)
                                 |(u & n & d & e & w1 & _ & _ & Hgen & H)]]];
    rewrite H; simpl; auto;
    destruct (generate_port_state _ _ _ _ _ _ _ Hgen) as (Hs & _).
  - rewrite DictFacts.get_set_ne by exact Hn. now rewrite Hs.
  - now rewrite Hs.
Qed.

(** X8. A registration changes no entry but the one of the name it
    registers, and keeps the order of the table: the keys are those of
    before, or those of before followed by the newly registered name. *)
Theorem X8_registration_frame
    (E : Env) (data : RegisterRequest) (w : World) (k : string) :
  server_name data <> Some k ->
  Dict.get k (servers (snd (register_server E data w))) = Dict.get k (servers w) /\
  (Dict.keys (servers (snd (register_server E data w))) = Dict.keys (servers w) \/
   exists n,
     server_name data = Some n /\
     Dict.get n (servers w) = None /\
     Dict.keys (servers (snd (register_server E data w)))
     = (Dict.keys (servers w) ++ [n])%list).
Proof.
  intros Hk.
  destruct (register_server_outcome E data w)
    as [(_ & H)|[(u & d & _ & H)|[(u & n & d & p & w1 & -> & Hn & Hgen & H)
                                 |(u & n & d & e & w1 & _ & _ & Hgen & H)]]];
    rewrite H; simpl; auto;
    destruct (generate_port_state _ _ _ _ _ _ _ Hgen) as (Hs & _).
  - rewrite Hs. simpl in Hk. split.
    + apply DictFacts.get_set_ne. congruence.
    + destruct (Dict.get n (servers w)) eqn:Hget.
      * left. apply DictFacts.keys_set_present.
        destruct (in_dec string_dec n (Dict.keys (servers w))) as [Hin|Hnin]; auto.
        apply DictFacts.get_None_keys in Hnin. congruence.
      * right. exists n. split; [reflexivity|]. split; [exact Hget|].
        apply DictFacts.get_None_keys in Hget.
        rewrite DictFacts.set_absent by exact Hget.
        unfold Dict.keys. now rewrite map_app.
  - rewrite Hs. auto.
Qed.

Lemma X8_registration_frame_witness :
  Dict.get "Evil" (servers (snd (register_server Examples.friendly Examples.first_echo
                                   Examples.two_backends)))
  = Dict.get "Evil" (servers Examples.two_backends) /\
  (Dict.keys (servers (snd (register_server Examples.friendly Examples.first_echo
                              Examples.two_backends)))
   = Dict.keys (servers Examples.two_backends) \/
   exists n,
     server_name Examples.first_echo = Some n /\
     Dict.get n (servers Examples.two_backends) = None /\
     Dict.keys (servers (snd (register_server Examples.friendly Examples.first_echo
                                Examples.two_backends)))
     = (Dict.keys (servers Examples.two_backends) ++ [n])%list).
Proof.
  apply (X8_registration_frame Examples.friendly Examples.first_echo
           Examples.two_backends "Evil").
  discriminate.
Defined.

(** X9. A registration answered 201 reports, in its body, the very record
    it filed under the name; the port of that record lies in 5000..65535
    and the last thing the registry did was to bind it successfully on the
    host of the request's URL. *)
Theorem X9_registration_reports_what_it_stored
    (E : Env) (data : RegisterRequest) (w w' : World) (resp : Response) :
  register_server E data w = (Ok resp, w') ->
  registered resp ->
  exists n u d p,
    data = mkRegisterRequest (Some u) (Some n) (Some d) /\
    5000 <= p <= 65535 /\
    body resp = JObj [("message", JStr "Server registered successfully");
                      ("server", server_info (mkServer n d u p))] /\
    Dict.get n (servers w') = Some (mkServer n d u p) /\
    exists tr, trace w' = EvBind (host_of E u) p true :: tr.
Proof.
  intros Hreg Hok. unfold registered in Hok.
  destruct (register_server_outcome E data w)
    as [(_ & H)|[(u & d & _ & H)|[(u & n & d & p & w1 & -> & Hn & Hgen & H)
                                 |(u & n & d & e & w1 & _ & _ & Hgen & H)]]];
    rewrite H in Hreg; try discriminate;
    injection Hreg as <- <-; try discriminate.
  pose proof (generate_port_default E u w) as Hport. rewrite Hgen in Hport.
  destruct Hport as (Hp & Htr & _).
  exists n, u, d, p. repeat split; try lia; auto.
  simpl. apply DictFacts.get_set_eq.
Qed.

Lemma X9_registration_reports_what_it_stored_witness :
  exists n u d p,
    Examples.first_echo = mkRegisterRequest (Some u) (Some n) (Some d) /\
    5000 <= p <= 65535 /\
    body (mkResponse 201
            (JObj [("message", JStr "Server registered successfully");
                   ("server", server_info
                      (mkServer "Echo" "first" "http://127.0.0.1" 5010))]))
    = JObj [("message", JStr "Server registered successfully");
            ("server", server_info (mkServer n d u p))] /\
    Dict.get n (servers Examples.after_first) = Some (mkServer n d u p) /\
    exists tr,
      trace Examples.after_first = EvBind (host_of Examples.friendly u) p true :: tr.
Proof.
  apply (X9_registration_reports_what_it_stored Examples.friendly
           Examples.first_echo Examples.empty_world Examples.after_first).
  - vm_compute. reflexivity.
  - reflexivity.
Defined.

(** X10. The answers of a registration request are a 400, for a request
    that lacks a field, a 403, for a complete request under the reserved
    name, and a 201, for a complete request under another name; the 400
    and the 403 change nothing and make no interaction.  A registration
    that ends in the [RuntimeError] of the port allocator leaves table,
    health cache and snapshot file as they were. *)
Theorem X10_registration_outcomes
    (E : Env) (data : RegisterRequest) (w : World) :
  match register_server E data w with
  | (Ok resp, w') =>
      (status resp = 400 /\ missing_field data = true /\ w' = w) \/
      (status resp = 403 /\ missing_field data = false /\
       server_name data = Some PERMISSION_SERVER_NAME /\ w' = w) \/
      (registered resp /\ missing_field data = false /\
       server_name data <> Some PERMISSION_SERVER_NAME)
  | (Raise e, w') =>
      e = Exn RuntimeError no_port_message -> state_unchanged w w'
  end.
Proof.
  destruct (register_server_outcome E data w)
    as [(Hm & H)|[(u & d & -> & H)|[(u & n & d & p & w1 & -> & Hn & _ & H)
                                   |(u & n & d & e & w1 & _ & _ & Hgen & H)]]];
    rewrite H; simpl.
  - left. auto.
  - right. left. auto.
  - right. right. repeat split. congruence.
  - intros _. pose proof (generate_port_default E u w) as Hport.
    rewrite Hgen in Hport. apply Hport.
Qed.

(** ** Tool calls: what they never change *)

Lemma filter_healthy_frame E l w r w' :
  filter_healthy E l w = (r, w') ->
  servers w' = servers w /\ STORAGE_FILE w' = STORAGE_FILE w.
Proof.
  pose proof (filter_healthy_spec E l w) as Hspec.
  destruct (filter_healthy E l w) as [[live|e] w0]; intros [= <- <-].
  - now destruct (health_filtered_frame _ _ _ _ _ Hspec) as (_ & Hs & Hfile).
  - exact (health_aborted_frame _ _ _ _ _ Hspec).
Qed.

Lemma call_tool_resolve_frame E requested w r w' :
  call_tool_resolve E requested w = (r, w') ->
  servers w' = servers w /\ STORAGE_FILE w' = STORAGE_FILE w /\
  (if contains_dot requested || String.eqb requested "ask_for_permission"
   then w' = w else True).
Proof.
  unfold call_tool_resolve. run.
  destruct (contains_dot requested); simpl.
  - destruct (split_dot_once requested) as [|a [|b [|c l]]];
      try (intros [= <- <-]; now repeat split).
    destruct (_ && _); [intros [= <- <-]; now repeat split|].
    destruct (negb _); [intros [= <- <-]; now repeat split|].
    destruct (Dict.get a (servers w)); intros [= <- <-]; now repeat split.
  - destruct (String.eqb requested "ask_for_permission").
    + destruct (Dict.get PERMISSION_SERVER_NAME (servers w));
        intros [= <- <-]; now repeat split.
    + destruct (filter_healthy E (Dict.values (servers w)) w) as [[live|e] w1] eqn:Hf;
        destruct (filter_healthy_frame _ _ _ _ _ Hf) as [Hs Hfile];
        intros [= <- <-]; now repeat split.
Qed.

Lemma call_tool_named_frame E n data w r w' :
  call_tool E (Some n) data w = (r, w') ->
  servers w' = servers w /\ STORAGE_FILE w' = STORAGE_FILE w /\
  (if contains_dot n || String.eqb n "ask_for_permission"
   then health_cache w' = health_cache w else True).
Proof.
  unfold call_tool. unfold bind at 1.
  destruct (call_tool_resolve E n w) as [[[r0|sn tn targets]|e] w1] eqn:Hres;
    destruct (call_tool_resolve_frame _ _ _ _ _ Hres) as (Hs & Hf & Hc).
  - intros [= <- <-]. repeat split; auto.
    revert Hc. destruct (_ || _); [now intros ->|auto].
  - unfold bind.
    destruct (call_tool_loop E tn data targets w1) as [out w2] eqn:Hloop.
    destruct (call_tool_loop_events _ _ _ _ _ _ _ Hloop) as (_ & _ & _ & Hs2 & Hh2 & Hf2).
    intros Hout.
    assert (w' = w2) as -> by (destruct out as [[res|]|e]; now injection Hout).
    repeat split; try congruence.
    revert Hc. destruct (_ || _); [intros <-; exact Hh2|auto].
  - intros [= <- <-]. repeat split; auto.
    revert Hc. destruct (_ || _); [now intros ->|auto].
Qed.

(** X11. A tool call, whatever the request and however it ends (a result,
    an error response or an exception), changes neither the table nor the
    snapshot file.  A request without a name changes nothing at all; a
    request that is qualified or names the consent tool leaves the health
    cache as it was. *)
Theorem X11_call_tool_frame
    (E : Env) (requested : option string) (data : json) (w : World) :
  servers (snd (call_tool E requested data w)) = servers w /\
  STORAGE_FILE (snd (call_tool E requested data w)) = STORAGE_FILE w /\
  match requested with
  | None => snd (call_tool E requested data w) = w
  | Some n =>
      if contains_dot n || String.eqb n "ask_for_permission"
      then health_cache (snd (call_tool E requested data w)) = health_cache w
      else True
  end.
Proof.
  destruct requested as [n|]; [|now repeat split].
  destruct (call_tool E (Some n) data w) as [r w'] eqn:Hcall.
  exact (call_tool_named_frame _ _ _ _ _ _ Hcall).
Qed.

(** ** Listed names and the names the dispatcher accepts *)

(** X12. Take a backend filed under its own name and one of its tools (not
    the consent tool, unless the backend is the privileged one).  The name
    under which the tool listing shows the tool is resolved by the
    dispatcher to that backend and that tool exactly when the backend's name
    contains no separator: a backend whose name contains one cannot be
    addressed by the names listed for it. *)
Theorem X12_listed_name_resolves_back
    (E : Env) (s : Server) (t : Tool) (w : World) :
  Dict.get (name s) (servers w) = Some s ->
  (tname t = "ask_for_permission" -> name s = PERMISSION_SERVER_NAME) ->
  call_tool_resolve E (tname (qualify s t)) w
    = (Ok (Targets (Some (name s)) (tname t) [s]), w)
  <-> contains_dot (name s) = false.
Proof.
  intros Hget Hboundary. cbn [qualify tname]. split.
  - pose proof (contains_dot_qualified (name s) (tname t)) as Hdot.
    destruct (split_dot_once_shape _ Hdot) as (sn & tn & Hsplit & _ & Hsn).
    unfold call_tool_resolve. run. rewrite Hdot, Hsplit.
    destruct (_ && _); [discriminate|].
    destruct (negb _); [discriminate|].
    destruct (Dict.get sn (servers w)); [|discriminate].
    intros [= <- _ _]. exact Hsn.
  - intros Hdot.
    unfold call_tool_resolve. run.
    rewrite contains_dot_qualified, (split_dot_once_qualified _ _ Hdot).
    replace (String.eqb (tname t) "ask_for_permission"
             && negb (String.eqb (name s) PERMISSION_SERVER_NAME)) with false.
    + unfold Dict.contains. rewrite Hget. reflexivity.
    + destruct (String.eqb_spec (tname t) "ask_for_permission") as [Ht|]; [|reflexivity].
      rewrite (Hboundary Ht), String.eqb_refl. reflexivity.
Qed.

Lemma X12_listed_name_resolves_back_witness :
  call_tool_resolve Examples.friendly
      (tname (qualify Examples.echo (mkTool "echo" "Echo the input text" JNull)))
      Examples.two_backends
    = (Ok (Targets (Some (name Examples.echo))
                   (tname (mkTool "echo" "Echo the input text" JNull))
                   [Examples.echo]),
       Examples.two_backends)
  <-> contains_dot (name Examples.echo) = false.
Proof.
  apply (X12_listed_name_resolves_back Examples.friendly Examples.echo
           (mkTool "echo" "Echo the input text" JNull) Examples.two_backends).
  - reflexivity.
  - discriminate.
Defined.

(** A backend registered as [a.b]: the name listed for its tool [t] is
    [a.b.t], which the dispatcher takes for tool [b.t] of backend [a]. *)
Example dotted_backend_name_is_misread :
  call_tool_resolve Examples.friendly
    (tname (qualify (mkServer "a.b" "d" "http://127.0.0.1" 5012) (mkTool "t" "d" JNull)))
    (Examples.world_of [("a", Examples.echo);
                        ("a.b", mkServer "a.b" "d" "http://127.0.0.1" 5012)])
  = (Ok (Targets (Some "a") "b.t" [Examples.echo]),
     Examples.world_of [("a", Examples.echo);
                        ("a.b", mkServer "a.b" "d" "http://127.0.0.1" 5012)]).
Proof. vm_compute. reflexivity. Qed.

(** ** The tool listing: scope, names, failures *)

(** X13. A tool listing scoped to a non-empty name that is not registered
    is answered 404 and nothing happens: no health check, no transport
    call, no change. *)
Theorem X13_get_tools_unknown_scope (E : Env) (n : string) (w : World) :
  n <> EmptyString ->
  Dict.get n (servers w) = None ->
  get_tools E (Some n) w = (Ok (server_not_found n), w).
Proof.
  intros Hn Hget. unfold get_tools, tools_errors, tools_targets. run.
  apply String.eqb_neq in Hn. rewrite Hn, Hget. reflexivity.
Qed.

Lemma X13_get_tools_unknown_scope_witness :
  get_tools Examples.friendly (Some "Ghost") Examples.two_backends
  = (Ok (server_not_found "Ghost"), Examples.two_backends).
Proof.
  apply (X13_get_tools_unknown_scope Examples.friendly "Ghost" Examples.two_backends).
  - discriminate.
  - reflexivity.
Defined.

Lemma get_In_values {V} (k : string) (v : V) (d : dict V) :
  Dict.get k d = Some v -> In v (Dict.values d).
Proof.
  induction d as [|[k' v'] d IH]; simpl; [discriminate|].
  destruct (String.eqb k k'); [intros [= ->]; now left|auto].
Qed.

Lemma tools_targets_spec server_name w r w' :
  tools_targets server_name w = (Ok r, w') ->
  w' = w /\ Forall (fun s => In s (Dict.values (servers w))) r.
Proof.
  unfold tools_targets. run.
  assert (Hall : Forall (fun s => In s (Dict.values (servers w)))
                        (Dict.values (servers w)))
    by (apply Forall_forall; intros x Hx; now apply list_elem_of_In).
  destruct server_name as [n|]; [|intros [= <- <-]; auto].
  destruct (String.eqb n EmptyString); [intros [= <- <-]; auto|].
  destruct (Dict.get n (servers w)) as [s|] eqn:Hget; [|discriminate].
  intros [= <- <-]. split; [reflexivity|]. forall_list.
  eapply get_In_values; eauto.
Qed.

(** A health check only adds to the trace. *)
Lemma check_server_health_extends E s w r w' :
  check_server_health E s w = (r, w') ->
  exists evs, trace w' = (evs ++ trace w)%list.
Proof.
  intros Hc.
  destruct (check_server_health_outcome E s w)
    as [(last & v & _ & _ & Hc') | [(b & v & Hb & Hc') | (b & e & Hb & _ & _ & Hc')]];
    revert Hc; rewrite Hc'; intros [= <- <-]; simpl.
  - now exists [EvNow].
  - destruct Hb as [-> | ->].
    + now exists [EvNow; EvHttpGet (health_url s) 5].
    + now exists [EvNow; EvHttpGet (health_url s) 5; EvNow].
  - destruct Hb as [-> | ->].
    + now exists [EvHttpGet (health_url s) 5].
    + now exists [EvHttpGet (health_url s) 5; EvNow].
Qed.

(** Where the tools of a listing come from: each is a tool of a catalog
    that a backend of [l] returned to a tool-listing call of this run. *)
Lemma get_tools_loop_names E l acc w tools w' :
  get_tools_loop E l acc w = (Ok tools, w') ->
  (exists evs, trace w' = (evs ++ trace w)%list) /\
  exists new,
    tools = (acc ++ new)%list /\
    Forall (fun tl => exists s t tr ts,
                In s l /\
                (exists later, trace w' = (later ++ EvListTools (base_url s) :: tr)%list) /\
                (exists earlier, tr = (earlier ++ trace w)%list) /\
                rpc_list_tools E tr (base_url s) = Ok ts /\
                In t ts /\
                tl = qualify s t) new.
Proof.
  revert acc w. induction l as [|s rest IH]; intros acc w.
  - simpl. run. intros [= <- <-]. split; [now exists []|].
    exists []. split; [now rewrite app_nil_r|constructor].
  - cbn [get_tools_loop]. unfold client_list_tools, mark_unhealthy, datetime_now. run.
    destruct (check_server_health E s w) as [[v|e] w1] eqn:Hc;
      [|rewrite (check_server_health_raises _ _ _ _ _ Hc); discriminate].
    destruct (check_server_health_extends _ _ _ _ _ Hc) as (evs1 & Htr1).
    assert (Hweaken : forall w2 mid new,
               trace w2 = (mid ++ trace w)%list ->
               Forall (fun tl => exists s0 t tr ts,
                           In s0 rest /\
                           (exists later,
                               trace w' = (later ++ EvListTools (base_url s0) :: tr)%list) /\
                           (exists earlier, tr = (earlier ++ trace w2)%list) /\
                           rpc_list_tools E tr (base_url s0) = Ok ts /\
                           In t ts /\ tl = qualify s0 t) new ->
               Forall (fun tl => exists s0 t tr ts,
                           In s0 (s :: rest) /\
                           (exists later,
                               trace w' = (later ++ EvListTools (base_url s0) :: tr)%list) /\
                           (exists earlier, tr = (earlier ++ trace w)%list) /\
                           rpc_list_tools E tr (base_url s0) = Ok ts /\
                           In t ts /\ tl = qualify s0 t) new).
    { intros w2 mid new Hmid Hnew. eapply Forall_impl; [exact Hnew|].
      intros tl (s0 & t & tr & ts & Hin & Hlater & (earlier & Hearlier) & Hrpc & Ht & ->).
      exists s0, t, tr, ts. repeat split; auto; [now right|].
      exists (earlier ++ mid)%list. rewrite Hearlier, Hmid. now rewrite app_assoc. }
    destruct v; simpl.
    + destruct (rpc_list_tools E (trace w1) (base_url s)) as [ts|e] eqn:Hrpc; simpl.
      * intros Hloop. destruct (IH _ _ Hloop) as ((evs2 & Htr2) & new & -> & Hnew).
        simpl in Htr2.
        split.
        { exists (evs2 ++ EvListTools (base_url s) :: evs1)%list.
          rewrite Htr2, Htr1, <- app_assoc. reflexivity. }
        exists (map (qualify s) ts ++ new)%list. split; [now rewrite app_assoc|].
        apply Forall_app. split.
        -- apply Forall_forall. intros tl Hin. apply list_elem_of_In, in_map_iff in Hin.
           destruct Hin as (t & <- & Ht). exists s, t, (trace w1), ts.
           repeat split; eauto.
        -- apply (Hweaken (log (EvListTools (base_url s)) w1)
                          (EvListTools (base_url s) :: evs1)); [|exact Hnew].
           simpl. now rewrite Htr1.
      * destruct (exn_class_eqb (exn_cls e) RequestException); simpl; [|discriminate].
        intros Hloop. destruct (IH _ _ Hloop) as ((evs2 & Htr2) & new & -> & Hnew).
        simpl in Htr2.
        split.
        { exists (evs2 ++ EvNow :: EvListTools (base_url s) :: evs1)%list.
          rewrite Htr2, Htr1, <- app_assoc. reflexivity. }
        exists new. split; [reflexivity|].
        eapply (Hweaken _ (EvNow :: EvListTools (base_url s) :: evs1)); [|exact Hnew].
        simpl. now rewrite Htr1.
    + intros Hloop. destruct (IH _ _ Hloop) as ((evs2 & Htr2) & new & -> & Hnew).
      split.
      { exists (evs2 ++ evs1)%list. rewrite Htr2, Htr1, <- app_assoc. reflexivity. }
      exists new. split; [reflexivity|].
      apply (Hweaken w1 evs1); [exact Htr1|exact Hnew].
Qed.

(** X14. Every tool of a listing answered 200 comes from a catalog that a
    registered backend returned to a tool-listing call made for this very
    request, and is shown with the description and schema the backend
    gave, under the backend's name, a separator and the tool's own name. *)
Theorem X14_listed_tools_are_qualified
    (E : Env) (scope : option string) (w w' : World) (docs : list json) :
  get_tools E scope w = (Ok (mkResponse 200 (JArr docs)), w') ->
  Forall (fun doc => exists s t tr ts,
              In s (Dict.values (servers w)) /\
              (exists later, trace w' = (later ++ EvListTools (base_url s) :: tr)%list) /\
              (exists earlier, tr = (earlier ++ trace w)%list) /\
              rpc_list_tools E tr (base_url s) = Ok ts /\
              In t ts /\
              doc = JObj [("name", JStr (name s +:+ "." +:+ tname t));
                          ("description", JStr (tdescription t));
                          ("inputSchema", inputSchema t)]) docs.
Proof.
  unfold get_tools, tools_errors. unfold bind at 1.
  destruct (tools_targets scope w) as [[targets|e] w0] eqn:Ht.
  - destruct (tools_targets_spec _ _ _ _ Ht) as [-> Hreg].
    unfold bind.
    destruct (get_tools_loop E targets [] w) as [[tools|e] w1] eqn:Hloop.
    + cbn [ret]. intros [= <- <-].
      destruct (get_tools_loop_names _ _ _ _ _ _ Hloop) as (_ & new & -> & Hnew).
      simpl. apply Forall_forall. intros doc Hdoc.
      apply list_elem_of_In, in_map_iff in Hdoc. destruct Hdoc as (tl & <- & Hin).
      rewrite Forall_forall in Hnew.
      destruct (Hnew tl (proj2 (list_elem_of_In _ _) Hin))
        as (s & t & tr & ts & Hs & Hlater & Hearlier & Hrpc & Hts & ->).
      exists s, t, tr, ts. repeat split; auto.
      rewrite Forall_forall in Hreg. apply Hreg. now apply list_elem_of_In.
    + destruct (exn_class_eqb (exn_cls e) KeyError); discriminate.
  - destruct (exn_class_eqb (exn_cls e) KeyError); discriminate.
Qed.

Lemma X14_listed_tools_are_qualified_witness :
  Forall (fun doc => exists s t tr ts,
              In s (Dict.values (servers Examples.two_backends)) /\
              (exists later,
                  trace (snd (get_tools Examples.picky None Examples.two_backends))
                  = (later ++ EvListTools (base_url s) :: tr)%list) /\
              (exists earlier, tr = (earlier ++ trace Examples.two_backends)%list) /\
              rpc_list_tools Examples.picky tr (base_url s) = Ok ts /\
              In t ts /\
              doc = JObj [("name", JStr (name s +:+ "." +:+ tname t));
                          ("description", JStr (tdescription t));
                          ("inputSchema", inputSchema t)])
         [JObj [("name", JStr "Echo.echo");
                ("description", JStr "Echo the input text");
                ("inputSchema", JNull)]].
Proof.
  apply (X14_listed_tools_are_qualified Examples.picky None Examples.two_backends
           (snd (get_tools Examples.picky None Examples.two_backends))).
  vm_compute. reflexivity.
Defined.

(** X15. When the tool listing, scoped to a backend the health prober
    reports healthy, meets a transport error on that backend's catalog, it
    answers 200 with an empty list and records the backend as unhealthy at
    the time of the failure; a health check made while that record is
    younger than 30 seconds then says unhealthy without probing. *)
Theorem X15_listing_failure_demotes_backend
    (E : Env) (n : string) (s : Server) (w w1 : World) (msg : string) :
  n <> EmptyString ->
  Dict.get n (servers w) = Some s ->
  check_server_health E s w = (Ok true, w1) ->
  rpc_list_tools E (trace w1) (base_url s) = Raise (Exn RequestException msg) ->
  exists w2 t,
    get_tools E (Some n) w = (Ok (mkResponse 200 (JArr [])), w2) /\
    t = clock E (EvListTools (base_url s) :: trace w1) /\
    health_cache w2 !! name s = Some (t, false) /\
    (clock E (trace w2) - t < TTL ->
     check_server_health E s w2 = (Ok false, log EvNow w2)).
Proof.
  intros Hn Hget Hc Hrpc.
  eexists _, _. split; [|split; [reflexivity|]].
  - unfold get_tools, tools_errors, tools_targets. run.
    apply String.eqb_neq in Hn. rewrite Hn, Hget. simpl.
    unfold client_list_tools, mark_unhealthy, datetime_now. run.
    rewrite Hc. simpl. rewrite Hrpc. simpl. reflexivity.
  - simpl. split; [apply lookup_insert_eq|].
    intros Hfresh. eapply check_server_health_cached; [apply lookup_insert_eq|exact Hfresh].
Qed.

Lemma X15_listing_failure_demotes_backend_witness :
  exists w2 t,
    get_tools Examples.picky (Some "Evil") Examples.two_backends
      = (Ok (mkResponse 200 (JArr [])), w2) /\
    t = clock Examples.picky
          (EvListTools (base_url Examples.evil)
             :: trace (snd (check_server_health Examples.picky Examples.evil
                              Examples.two_backends))) /\
    health_cache w2 !! name Examples.evil = Some (t, false) /\
    (clock Examples.picky (trace w2) - t < TTL ->
     check_server_health Examples.picky Examples.evil w2 = (Ok false, log EvNow w2)).
Proof.
  apply (X15_listing_failure_demotes_backend Examples.picky "Evil" Examples.evil
           Examples.two_backends
           (snd (check_server_health Examples.picky Examples.evil Examples.two_backends))
           "connection refused").
  - discriminate.
  - reflexivity.
  - vm_compute. reflexivity.
  - reflexivity.
Defined.

Lemma mark_unhealthy_frame E s w :
  servers (snd (mark_unhealthy E s w)) = servers w /\
  STORAGE_FILE (snd (mark_unhealthy E s w)) = STORAGE_FILE w.
Proof. split; reflexivity. Qed.

Lemma get_tools_loop_frame E l acc w r w' :
  get_tools_loop E l acc w = (r, w') ->
  servers w' = servers w /\ STORAGE_FILE w' = STORAGE_FILE w.
Proof.
  revert acc w. induction l as [|s rest IH]; intros acc w.
  - simpl. run. intros [= <- <-]. split; reflexivity.
  - cbn [get_tools_loop]. unfold client_list_tools, mark_unhealthy, datetime_now. run.
    destruct (check_server_health E s w) as [[v|e] w1] eqn:Hc;
      destruct (check_server_health_servers _ _ _ _ _ Hc) as [Hs1 Hf1];
      [|rewrite (check_server_health_raises _ _ _ _ _ Hc);
        intros [= <- <-]; split; assumption].
    destruct v; simpl.
    + destruct (rpc_list_tools E (trace w1) (base_url s)) as [ts|e]; simpl.
      * intros Hloop. destruct (IH _ _ Hloop) as [Hs Hf]. simpl in *.
        split; congruence.
      * destruct (exn_class_eqb (exn_cls e) RequestException); simpl.
        -- intros Hloop. destruct (IH _ _ Hloop) as [Hs Hf]. simpl in *.
           split; congruence.
        -- intros [= <- <-]. simpl. split; congruence.
    + intros Hloop. destruct (IH _ _ Hloop) as [Hs Hf]. split; congruence.
Qed.

(** X16. [GET /tools] always answers: with 200, or with 404 or 500 when an
    exception other than a transport error ended the listing; it never
    raises, and it changes neither the table nor the snapshot file. *)
Theorem X16_get_tools_always_answers
    (E : Env) (scope : option string) (w : World) :
  exists resp w',
    get_tools E scope w = (Ok resp, w') /\
    (status resp = 200 \/ status resp = 404 \/ status resp = 500) /\
    servers w' = servers w /\
    STORAGE_FILE w' = STORAGE_FILE w.
Proof.
  unfold get_tools, tools_errors. unfold bind at 1.
  destruct (tools_targets scope w) as [[targets|e] w0] eqn:Ht.
  - destruct (tools_targets_spec _ _ _ _ Ht) as [-> _]. unfold bind.
    destruct (get_tools_loop E targets [] w) as [[tools|e] w1] eqn:Hloop;
      destruct (get_tools_loop_frame _ _ _ _ _ _ Hloop) as [Hs Hf].
    + eexists _, _. split; [reflexivity|]. simpl. auto.
    + destruct (exn_class_eqb (exn_cls e) KeyError);
        eexists _, _; (split; [reflexivity|]); simpl; auto.
  - assert (w0 = w) as ->.
    { revert Ht. unfold tools_targets. run.
      destruct scope as [n|]; [|discriminate].
      destruct (String.eqb n EmptyString); [discriminate|].
      destruct (Dict.get n (servers w)); [discriminate|]. now intros [= _ <-]. }
    destruct (exn_class_eqb (exn_cls e) KeyError);
      eexists _, _; (split; [reflexivity|]); simpl; auto.
Qed.

(** ** Port allocation: when it is sure to succeed *)

Lemma scan_ports_finds E host (q : Z) :
  (forall tr, bind_ok E tr host q = true) ->
  forall (left : nat) (p : Z) (w : World),
    0 <= p -> p <= q -> q < p + Z.of_nat left -> q <= 65535 ->
    exists r w', scan_ports E left host p w = (Ok r, w') /\ p <= r <= q.
Proof.
  intros Hfree. induction left as [|left IH]; intros p w Hp Hpq Hq Hhi; [lia|].
  cbn [scan_ports]. unfold sock_bind. run.
  replace ((p <? 0) || (65535 <? p)) with false
    by (symmetry; apply orb_false_intro; lia).
  destruct (bind_ok E (trace w) host p) eqn:Hb; simpl.
  - exists p, (log (EvBind host p true) w). split; [reflexivity|lia].
  - assert (p <> q) by (intros ->; rewrite Hfree in Hb; discriminate).
    destruct (IH (p + 1) (log (EvBind host p false) w)) as (r & w' & Hscan & Hr);
      try lia.
    exists r, w'. split; [exact Hscan|lia].
Qed.

(** X17. For a range of ports, the allocator succeeds whenever the last
    port of the range can be bound on the host: the upward scan from the
    draw always reaches it. *)
Theorem X17_allocation_succeeds_when_last_port_is_free
    (E : Env) (server_url : string) (start_port end_port : Z) (w : World) :
  0 <= start_port -> start_port <= end_port -> end_port <= 65535 ->
  (forall tr, bind_ok E tr (host_of E server_url) end_port = true) ->
  exists p w',
    _generate_port E server_url start_port end_port w = (Ok p, w') /\
    start_port <= p <= end_port.
Proof.
  intros Hlo Hle Hhi Hfree. unfold _generate_port, random_randint. run.
  destruct (Z.ltb_spec end_port start_port) as [|_]; [lia|].
  set (r := start_port + entropy E (trace w) `mod` (end_port - start_port + 1)).
  assert (Hr : start_port <= r <= end_port).
  { pose proof (Z.mod_pos_bound (entropy E (trace w)) (end_port - start_port + 1)).
    unfold r. lia. }
  destruct (scan_ports_finds E (host_of E server_url) end_port Hfree
              (Z.to_nat (end_port - r + 1)) r
              (log (EvRandint start_port end_port r) w))
    as (p & w' & Hscan & Hp); try lia.
  exists p, w'. split; [exact Hscan|lia].
Qed.

Lemma X17_allocation_succeeds_when_last_port_is_free_witness :
  exists p w',
    _generate_port
      (mkEnv (fun _ => 0) (fun _ => 12345) (fun _ _ q => q =? 65535)
             (fun _ => None) (fun _ _ _ => Ok 200)
             (fun _ _ => Ok []) (fun _ _ _ _ => Ok []))
      "http://127.0.0.1" 65000 65535 Examples.empty_world = (Ok p, w') /\
    65000 <= p <= 65535.
Proof.
  apply (X17_allocation_succeeds_when_last_port_is_free
           (mkEnv (fun _ => 0) (fun _ => 12345) (fun _ _ q => q =? 65535)
                  (fun _ => None) (fun _ _ _ => Ok 200)
                  (fun _ _ => Ok []) (fun _ _ _ _ => Ok []))
           "http://127.0.0.1" 65000 65535 Examples.empty_world); try lia.
  reflexivity.
Defined.

(** ** Startup *)

(** X18. When [run] gets as far as serving, the table has unique keys with
    every server under its own name, the snapshot file holds the document
    of that table, and the entry under the reserved name is the built-in
    permission server on a freshly allocated port of 5000..65535: a
    snapshot record filed under the reserved name is not taken over. *)
Theorem X18_startup_state
    (E : Env) (permission_description : string) (w w' : World) :
  table_ok (servers w) ->
  run E permission_description w = (Ok tt, w') ->
  table_ok (servers w') /\
  in_sync w' /\
  exists p,
    5000 <= p <= 65535 /\
    Dict.get PERMISSION_SERVER_NAME (servers w')
    = Some (mkServer PERMISSION_SERVER_NAME permission_description
                     "http://127.0.0.1" p).
Proof.
  intros Hok. unfold run, load_permission_server, in_sync. run.
  pose proof (generate_port_default E "http://127.0.0.1" w) as Hport.
  destruct (_generate_port E "http://127.0.0.1" 5000 65535 w) as [[p|e] w1] eqn:Hgen;
    [|discriminate].
  destruct Hport as (Hp & _ & Hs & _).
  set (perm := mkServer PERMISSION_SERVER_NAME permission_description
                        "http://127.0.0.1" p).
  set (w2 := mkWorld _ _ _ _).
  destruct (load_servers E w2) as [[loaded|e] w3] eqn:Hload; [|discriminate].
  pose proof (load_servers_table_ok _ _ _ _ Hload) as [_ Hkl].
  pose proof (load_servers_servers _ _ _ _ Hload) as Hs3.
  simpl. intros [= <-]. simpl. rewrite Hs3. subst w2. simpl. rewrite Hs.
  split; [|split; [reflexivity|]].
  - apply adopt_loaded_table_ok; [exact Hkl|].
    apply (table_ok_set perm). exact Hok.
  - exists p. split; [exact Hp|].
    rewrite adopt_loaded_keeps_privileged. apply DictFacts.get_set_eq.
Qed.

Lemma X18_startup_state_witness :
  table_ok (servers (snd (run Examples.friendly "permissions"
     (mkWorld [] empty
        (Some (JsonDoc (snapshot_of
           [(PERMISSION_SERVER_NAME,
             mkServer PERMISSION_SERVER_NAME "stale" "http://10.0.0.9" 6001);
            ("Echo", Examples.echo)]))) [])))) /\
  in_sync (snd (run Examples.friendly "permissions"
     (mkWorld [] empty
        (Some (JsonDoc (snapshot_of
           [(PERMISSION_SERVER_NAME,
             mkServer PERMISSION_SERVER_NAME "stale" "http://10.0.0.9" 6001);
            ("Echo", Examples.echo)]))) []))) /\
  exists p,
    5000 <= p <= 65535 /\
    Dict.get PERMISSION_SERVER_NAME
      (servers (snd (run Examples.friendly "permissions"
         (mkWorld [] empty
            (Some (JsonDoc (snapshot_of
               [(PERMISSION_SERVER_NAME,
                 mkServer PERMISSION_SERVER_NAME "stale" "http://10.0.0.9" 6001);
                ("Echo", Examples.echo)]))) []))))
    = Some (mkServer PERMISSION_SERVER_NAME "permissions" "http://127.0.0.1" p).
Proof.
  apply (X18_startup_state Examples.friendly "permissions"
           (mkWorld [] empty
              (Some (JsonDoc (snapshot_of
                 [(PERMISSION_SERVER_NAME,
                   mkServer PERMISSION_SERVER_NAME "stale" "http://10.0.0.9" 6001);
                  ("Echo", Examples.echo)]))) [])).
  - apply table_ok_empty.
  - vm_compute. reflexivity.
Defined.

(** The table after that startup: the permission server first, then the
    backend restored from the snapshot. *)
Example startup_ignores_stale_privileged_record :
  servers (snd (run Examples.friendly "permissions"
     (mkWorld [] empty
        (Some (JsonDoc (snapshot_of
           [(PERMISSION_SERVER_NAME,
             mkServer PERMISSION_SERVER_NAME "stale" "http://10.0.0.9" 6001);
            ("Echo", Examples.echo)]))) [])))
  = [(PERMISSION_SERVER_NAME,
      mkServer PERMISSION_SERVER_NAME "permissions" "http://127.0.0.1" 5010);
     ("Echo", Examples.echo)].
Proof. vm_compute. reflexivity. Qed.

(** ** The explorer's tool names *)

Lemma split_dot_nonempty (x : string) : Explorer.split_dot x <> [].
Proof.
  induction x as [|c x IH]; simpl; [discriminate|].
  destruct (Ascii.eqb c "."); [discriminate|].
  destruct (Explorer.split_dot x); [contradiction|discriminate].
Qed.

Lemma split_dot_qualified (s t : string) :
  Explorer.split_dot (s +:+ "." +:+ t)
  = (Explorer.split_dot s ++ Explorer.split_dot t)%list.
Proof.
  induction s as [|c s IH].
  - reflexivity.
  - change (String c s +:+ "." +:+ t) with (String c (s +:+ "." +:+ t)).
    cbn [Explorer.split_dot]. rewrite IH.
    destruct (Ascii.eqb c "."); [reflexivity|].
    pose proof (split_dot_nonempty s) as Hne.
    destruct (Explorer.split_dot s); [contradiction|reflexivity].
Qed.

Lemma split_dot_free (t : string) :
  contains_dot t = false -> Explorer.split_dot t = [t].
Proof.
  induction t as [|c t IH]; simpl; [reflexivity|].
  intros [Hc Ht]%orb_false_elim. rewrite Hc, (IH Ht). reflexivity.
Qed.

Lemma split_dot_segments (x : string) :
  Forall (fun seg => contains_dot seg = false) (Explorer.split_dot x).
Proof.
  induction x as [|c x IH]; simpl.
  - forall_list. reflexivity.
  - destruct (Ascii.eqb c ".") eqn:Hc.
    + constructor; [reflexivity|exact IH].
    + destruct (Explorer.split_dot x) as [|h tl]; [constructor|].
      apply Forall_cons in IH. destruct IH as [Hh Htl].
      constructor; [simpl; now rewrite Hc, Hh|exact Htl].
Qed.

Lemma display_name_dot_free (x : string) :
  contains_dot (Explorer.display_name x) = false.
Proof.
  unfold Explorer.display_name.
  pose proof (split_dot_segments x) as Hall.
  pose proof (split_dot_nonempty x) as Hne.
  rewrite Forall_forall in Hall. apply Hall, list_elem_of_In.
  destruct (exists_last Hne) as (l & a & ->). rewrite last_last.
  apply in_or_app. right. now left.
Qed.

Lemma display_name_qualified (s t : string) :
  Explorer.display_name (s +:+ "." +:+ t) = Explorer.display_name t.
Proof.
  unfold Explorer.display_name. rewrite split_dot_qualified.
  pose proof (split_dot_nonempty t) as Hne.
  destruct (exists_last Hne) as (l & a & ->).
  now rewrite app_assoc, !last_last.
Qed.

Lemma append_cancel (s x y : string) : s +:+ x = s +:+ y -> x = y.
Proof.
  induction s as [|c s IH]; [auto|].
  change (String c (s +:+ x) = String c (s +:+ y) -> x = y).
  intros [= H]. auto.
Qed.

(** X19. The explorer shows a listed tool under the last segment of its
    name and looks it up again under the server's name, a separator and
    that segment.  The name it looks up is the listed one exactly when the
    tool's own name contains no separator; a tool whose name contains one
    is shown but cannot be opened. *)
Theorem X19_explorer_finds_tool_again (s : Server) (t : Tool) :
  Explorer.full_tool_name (name s)
    (Explorer.display_name (tname (qualify s t)))
  = tname (qualify s t)
  <-> contains_dot (tname t) = false.
Proof.
  cbn [qualify tname]. unfold Explorer.full_tool_name.
  rewrite display_name_qualified. split.
  - intros Heq. apply append_cancel in Heq.
    apply (append_cancel "." _ _) in Heq.
    rewrite <- Heq. apply display_name_dot_free.
  - intros Hdot. unfold Explorer.display_name. now rewrite (split_dot_free _ Hdot).
Qed.

(** ** The earlier server ([server.py]) beside the later one *)

(** X20. For a request that names all three fields and a name other than
    the reserved one, and for a request that lacks a field, the
    registration of [server.py] and the later one do the same; the later
    server differs only in turning the reserved name away. *)
Theorem X20_registrations_agree_off_reserved_name
    (E : Env) (data : RegisterRequest) (w : World) :
  server_name data <> Some PERMISSION_SERVER_NAME ->
  Legacy.register_server E data w = register_server E data w.
Proof.
  intros Hn. unfold Legacy.register_server, register_server.
  destruct data as [[u|] [n|] [d|]]; simpl in *; try reflexivity.
  destruct (String.eqb_spec n PERMISSION_SERVER_NAME) as [->|_]; [congruence|].
  reflexivity.
Qed.

Lemma X20_registrations_agree_off_reserved_name_witness :
  Legacy.register_server Examples.friendly Examples.first_echo Examples.empty_world
  = register_server Examples.friendly Examples.first_echo Examples.empty_world.
Proof.
  apply (X20_registrations_agree_off_reserved_name Examples.friendly
           Examples.first_echo Examples.empty_world).
  discriminate.
Defined.

(** The earlier server files a backend under the reserved name. *)
Example legacy_registers_reserved_name :
  Dict.get PERMISSION_SERVER_NAME
    (servers (snd (Legacy.register_server Examples.friendly
                     (mkRegisterRequest (Some "http://10.0.0.9")
                                        (Some PERMISSION_SERVER_NAME) (Some "d"))
                     Examples.empty_world)))
  = Some (mkServer PERMISSION_SERVER_NAME "d" "http://10.0.0.9" 5010).
Proof. vm_compute. reflexivity. Qed.

(** X21. In [server.py] a qualified name goes to the named backend
    whatever the tool is, the consent tool included: the candidates are the
    named backend when it is registered, and the request is answered 404
    when it is not.  Nothing is checked or changed on the way. *)
Theorem X21_legacy_dispatch_has_no_boundary
    (E : Env) (server_name tool_name : string) (data : json) (w : World) :
  contains_dot server_name = false ->
  match Dict.get server_name (servers w) with
  | Some server =>
      Legacy.call_tool_resolve E (server_name +:+ "." +:+ tool_name) w
        = (Ok (Targets (Some server_name) tool_name [server]), w)
  | None =>
      Legacy.call_tool E (Some (server_name +:+ "." +:+ tool_name)) data w
        = (Ok (server_not_found server_name), w)
  end.
Proof.
  intros Hdot.
  destruct (Dict.get server_name (servers w)) as [server|] eqn:Hget.
  - unfold Legacy.call_tool_resolve. run.
    rewrite contains_dot_qualified, (split_dot_once_qualified _ _ Hdot).
    unfold Dict.contains. rewrite Hget. reflexivity.
  - unfold Legacy.call_tool, Legacy.call_tool_resolve. run.
    rewrite contains_dot_qualified, (split_dot_once_qualified _ _ Hdot).
    unfold Dict.contains. rewrite Hget. reflexivity.
Qed.

Lemma X21_legacy_dispatch_has_no_boundary_witness :
  Legacy.call_tool_resolve Examples.friendly ("Evil" +:+ "." +:+ "ask_for_permission")
      Examples.two_backends
    = (Ok (Targets (Some "Evil") "ask_for_permission" [Examples.evil]),
       Examples.two_backends).
Proof.
  apply (X21_legacy_dispatch_has_no_boundary Examples.friendly
           "Evil" "ask_for_permission" JNull Examples.two_backends).
  reflexivity.
Defined.

(** The comprehension of [server.py]: a probe of every backend of [l], or
    of the backends up to the one whose probe raised. *)
Lemma legacy_filter_healthy_probes E l w :
  match Legacy.filter_healthy E l w with
  | (Ok live, w') =>
      sublist live l /\
      w' = mkWorld (servers w) (health_cache w) (STORAGE_FILE w)
                   (rev (map (fun s => EvHttpGet (health_url s) 5) l) ++ trace w)%list
  | (Raise e, w') =>
      uncaught e /\
      exists checked s rest,
        l = (checked ++ s :: rest)%list /\
        w' = mkWorld (servers w) (health_cache w) (STORAGE_FILE w)
                     (rev (map (fun s => EvHttpGet (health_url s) 5)
                               (checked ++ [s])) ++ trace w)%list
  end.
Proof.
  revert w. induction l as [|s rest IH]; intros w.
  - simpl. split; [constructor|now destruct w].
  - cbn [Legacy.filter_healthy]. unfold Legacy.check_server_health, requests_get. run.
    specialize (IH (log (EvHttpGet (base_url s +:+ "/health") 5) w)).
    assert (Htr : forall l0,
               (rev (map (fun s0 => EvHttpGet (health_url s0) 5) l0)
                  ++ trace (log (EvHttpGet (base_url s +:+ "/health") 5) w))%list
               = (rev (map (fun s0 => EvHttpGet (health_url s0) 5) (s :: l0))
                    ++ trace w)%list)
      by (intros l0; simpl; now rewrite <- app_assoc).
    assert (Hnext :
      match
        (match Legacy.filter_healthy E rest
                 (log (EvHttpGet (base_url s +:+ "/health") 5) w) with
         | (Ok kept, w') => (Ok kept, w')
         | (Raise e, w') => (Raise e, w')
         end : Result (list Server) * World)
      with
      | (Ok kept, w') =>
          sublist kept rest /\
          w' = mkWorld (servers w) (health_cache w) (STORAGE_FILE w)
                 (rev (map (fun s0 => EvHttpGet (health_url s0) 5) (s :: rest))
                    ++ trace w)%list
      | (Raise e, w') =>
          uncaught e /\
          exists checked s' rest',
            (s :: rest) = (checked ++ s' :: rest')%list /\
            w' = mkWorld (servers w) (health_cache w) (STORAGE_FILE w)
                   (rev (map (fun s0 => EvHttpGet (health_url s0) 5)
                             (checked ++ [s'])) ++ trace w)%list
      end).
    { destruct (Legacy.filter_healthy E rest _) as [[kept|e] w'].
      - destruct IH as (Hsub & ->). split; [exact Hsub|].
        rewrite Htr. reflexivity.
      - destruct IH as (He & checked & s' & rest' & -> & ->). split; [exact He|].
        exists (s :: checked), s', rest'. split; [reflexivity|].
        rewrite Htr. reflexivity. }
    destruct (http_get E (trace w) (base_url s +:+ "/health") 5) as [status|e]; simpl.
    + destruct (Legacy.filter_healthy E rest _) as [[kept|e] w'].
      * destruct Hnext as (Hsub & ->). split; [|reflexivity].
        destruct (status =? 200); now constructor.
      * exact Hnext.
    + destruct (exn_class_eqb (exn_cls e) RequestException) eqn:He; simpl.
      * destruct (Legacy.filter_healthy E rest _) as [[kept|e'] w'].
        -- destruct Hnext as (Hsub & ->). split; [|reflexivity]. now constructor.
        -- exact Hnext.
      * split; [exact He|]. exists [], s, rest. split; reflexivity.
Qed.

(** X22. [GET /servers] of [server.py] keeps no record of health: every
    request probes the registered backends in table order, with timeout 5,
    and changes nothing but the trace.  When every probe answers or fails
    with a transport error, every backend was probed once and the answer
    is a 200 listing a sub-sequence of the table.  When a probe raises
    another exception, the backends after it are not probed and the
    exception leaves the handler. *)
Theorem X22_legacy_get_servers_probes_all (E : Env) (w : World) :
  match Legacy.get_servers E w with
  | (Ok response, w') =>
      exists live,
        response = mkResponse 200 (JArr (map server_info live)) /\
        sublist live (Dict.values (servers w)) /\
        w' = mkWorld (servers w) (health_cache w) (STORAGE_FILE w)
                     (rev (map (fun s => EvHttpGet (health_url s) 5)
                               (Dict.values (servers w))) ++ trace w)%list
  | (Raise e, w') =>
      uncaught e /\
      exists checked s rest,
        Dict.values (servers w) = (checked ++ s :: rest)%list /\
        w' = mkWorld (servers w) (health_cache w) (STORAGE_FILE w)
                     (rev (map (fun s => EvHttpGet (health_url s) 5)
                               (checked ++ [s])) ++ trace w)%list
  end.
Proof.
  pose proof (legacy_filter_healthy_probes E (Dict.values (servers w)) w) as Hspec.
  unfold Legacy.get_servers. run.
  destruct (Legacy.filter_healthy E (Dict.values (servers w)) w) as [[live|e] w'].
  - destruct Hspec as (Hsub & ->). exists live. repeat split. exact Hsub.
  - exact Hspec.
Qed.

(** The two listings of live servers on a probe that raises an exception
    which is not a transport error. *)
Example legacy_get_servers_runs :
  fst (Legacy.get_servers Examples.friendly Examples.two_backends)
    = Ok (mkResponse 200 (JArr [server_info Examples.evil;
                                server_info Examples.echo])) /\
  fst (Legacy.get_servers Examples.unparsable Examples.two_backends)
    = Raise (Exn OtherException "LocationParseError") /\
  trace (snd (Legacy.get_servers Examples.unparsable Examples.two_backends))
    = [EvHttpGet (health_url Examples.evil) 5].
Proof. repeat split; vm_compute; reflexivity. Qed.

(** ** Qualified calls and the empty registry *)

(** X23. A call under a qualified name whose server is registered talks to
    that backend and to no other: every interaction of the call, however it
    ends, is a tool listing or a call of the named tool at the address of
    the named backend. *)
Theorem X23_qualified_call_stays_with_named_backend
    (E : Env) (server_name tool_name : string) (server : Server)
    (data : json) (w : World) :
  contains_dot server_name = false ->
  Dict.get server_name (servers w) = Some server ->
  exists evs,
    trace (snd (call_tool E (Some (server_name +:+ "." +:+ tool_name)) data w))
    = (evs ++ trace w)%list /\
    Forall (fun e => e = EvListTools (base_url server) \/
                     e = EvCallTool (base_url server) tool_name data) evs.
Proof.
  intros Hdot Hget. unfold call_tool, call_tool_resolve. run.
  rewrite contains_dot_qualified, (split_dot_once_qualified _ _ Hdot).
  destruct (_ && _); [exists []; split; [reflexivity|constructor]|].
  unfold Dict.contains. rewrite Hget. cbn [negb].
  destruct (call_tool_loop E tool_name data [server] w) as [out w'] eqn:Hloop.
  destruct (call_tool_loop_events _ _ _ _ _ _ _ Hloop) as (evs & Htr & Hev & _).
  exists evs. split.
  - destruct out as [[res|]|e]; exact Htr.
  - eapply Forall_impl; [exact Hev|]. intros e (s & [<-|[]] & He). exact He.
Qed.

Lemma X23_qualified_call_stays_with_named_backend_witness :
  exists evs,
    trace (snd (call_tool Examples.friendly (Some ("Echo" +:+ "." +:+ "echo")) JNull
                  Examples.two_backends))
    = (evs ++ trace Examples.two_backends)%list /\
    Forall (fun e => e = EvListTools (base_url Examples.echo) \/
                     e = EvCallTool (base_url Examples.echo) "echo" JNull) evs.
Proof.
  apply (X23_qualified_call_stays_with_named_backend Examples.friendly
           "Echo" "echo" Examples.echo JNull Examples.two_backends); reflexivity.
Defined.

(** X24. With no backend registered the three read requests answer at once
    and touch nothing: the servers listing and the unscoped tool listing
    answer 200 with an empty list, and a call of an unqualified tool other
    than the consent tool is answered 404. *)
Theorem X24_empty_registry
    (E : Env) (tool_name : string) (data : json) (w : World) :
  servers w = [] ->
  contains_dot tool_name = false ->
  tool_name <> "ask_for_permission" ->
  get_servers E w = (Ok (mkResponse 200 (JArr [])), w) /\
  get_tools E None w = (Ok (mkResponse 200 (JArr [])), w) /\
  call_tool E (Some tool_name) data w
    = (Ok (mkResponse 404 (error_body ("Tool '" +:+ tool_name +:+ "' not found"))), w).
Proof.
  intros Hempty Hdot Hne. repeat split.
  - unfold get_servers. run. rewrite Hempty. reflexivity.
  - unfold get_tools, tools_errors, tools_targets. run. rewrite Hempty. reflexivity.
  - unfold call_tool, call_tool_resolve. run. rewrite Hdot, Hempty.
    apply String.eqb_neq in Hne. rewrite Hne. reflexivity.
Qed.

Lemma X24_empty_registry_witness :
  get_servers Examples.friendly Examples.empty_world
    = (Ok (mkResponse 200 (JArr [])), Examples.empty_world) /\
  get_tools Examples.friendly None Examples.empty_world
    = (Ok (mkResponse 200 (JArr [])), Examples.empty_world) /\
  call_tool Examples.friendly (Some "echo") JNull Examples.empty_world
    = (Ok (mkResponse 404 (error_body ("Tool '" +:+ "echo" +:+ "' not found"))),
       Examples.empty_world).
Proof.
  apply (X24_empty_registry Examples.friendly "echo" JNull Examples.empty_world).
  - reflexivity.
  - reflexivity.
  - discriminate.
Defined.
